(** * The image editor modal: a shallow embedding of its state and handlers

    The component under study is the React function component
    [ImageEditorModal] (the complete version, 1460 lines).  Its state is a
    set of [useState] hooks; every user interaction runs one handler which
    reads the hooks of the current render and queues new values.

    Conventions of the embedding:
    - the hooks form one record [UI]; a handler is a function [UI -> option UI]
      (or [UI -> UI] when it cannot fail).  [None] stands for behaviour with
      no successor state in the model: an uncaught [TypeError], or (in
      [handleImageLoad] only) a write past the end of the history array;
    - a handler runs on the state committed by the previous one.  Inside one
      handler no hook is read after it has been set, so reading the closure
      and reading the passed state coincide;
    - JavaScript numbers are exact rationals extended with [+Infinity],
      [-Infinity] and [NaN] in the pointer geometry, the crop rectangle and
      the history, where the rounding of IEEE doubles and the sign of zero
      are not modelled;
    - the aspect ratio of the resize fields is an IEEE 754 binary64 value
      ([F64], on the standard library's [SpecFloat]): the ratio is stored by
      a binary64 division and the ratio lock divides and multiplies in
      binary64 before [Math.round], so the rounding of the quotient is the
      one of the program;
    - strings are sequences of 8-bit code units. *)

From Stdlib Require Import ZArith QArith Qround List String Ascii Bool Lia Lqa.
From Stdlib Require Import DecimalString DecimalPos.
From Stdlib Require SpecFloat.
Import ListNotations.
Close Scope Q_scope.

(** ** Numbers *)

Module Num.

Local Open Scope Q_scope.

Inductive num : Type :=
| Fin (q : Q)
| PInf
| NInf
| NaN.

(** Values that are integral by construction: results of [parseInt],
    [Math.round] and the DOM's [naturalWidth]. *)
Inductive inum : Type :=
| Int (z : Z)
| IPInf
| INInf
| INaN.

Definition Qltb (a b : Q) : bool :=
  match a ?= b with Lt => true | _ => false end.

Definition fin (q : Q) : num := Fin (Qred q).

Definition ofZ (z : Z) : num := Fin (inject_Z z).

Definition toNum (i : inum) : num :=
  match i with
  | Int z => ofZ z
  | IPInf => PInf
  | INInf => NInf
  | INaN => NaN
  end.

(** The infinity with the sign of a comparison against zero;
    [NaN] for zero itself. *)
Definition inf_of (c : comparison) : num :=
  match c with Gt => PInf | Lt => NInf | Eq => NaN end.

Definition neg (x : num) : num :=
  match x with
  | Fin q => fin (- q)
  | PInf => NInf
  | NInf => PInf
  | NaN => NaN
  end.

Definition add (x y : num) : num :=
  match x, y with
  | NaN, _ | _, NaN => NaN
  | Fin a, Fin b => fin (a + b)
  | PInf, NInf | NInf, PInf => NaN
  | PInf, _ | _, PInf => PInf
  | NInf, _ | _, NInf => NInf
  end.

Definition sub (x y : num) : num := add x (neg y).

Definition mul (x y : num) : num :=
  match x, y with
  | NaN, _ | _, NaN => NaN
  | Fin a, Fin b => fin (a * b)
  | Fin a, PInf | PInf, Fin a => inf_of (a ?= 0)
  | Fin a, NInf | NInf, Fin a => inf_of (0 ?= a)
  | PInf, PInf | NInf, NInf => PInf
  | PInf, NInf | NInf, PInf => NInf
  end.

Definition div (x y : num) : num :=
  match x, y with
  | NaN, _ | _, NaN => NaN
  | Fin a, Fin b =>
      if Qeq_bool b 0 then inf_of (a ?= 0) else fin (a / b)
  | Fin _, PInf | Fin _, NInf => Fin 0
  | PInf, Fin b => if Qltb b 0 then NInf else PInf
  | NInf, Fin b => if Qltb b 0 then PInf else NInf
  | _, _ => NaN
  end.

(** [x < y]; every comparison with [NaN] is false. *)
Definition lt (x y : num) : bool :=
  match x, y with
  | NaN, _ | _, NaN => false
  | Fin a, Fin b => Qltb a b
  | _, NInf => false
  | PInf, _ => false
  | NInf, _ => true
  | Fin _, PInf => true
  end.

(** [x <= y]. *)
Definition le (x y : num) : bool :=
  match x, y with
  | NaN, _ | _, NaN => false
  | Fin a, Fin b => Qle_bool a b
  | NInf, _ => true
  | _, PInf => true
  | _, _ => false
  end.

Definition gt (x y : num) : bool := lt y x.
Definition ge (x y : num) : bool := le y x.

(** [Math.min] and [Math.max] of two arguments. *)
Definition min (x y : num) : num :=
  match x, y with
  | NaN, _ | _, NaN => NaN
  | _, _ => if lt y x then y else x
  end.

Definition max (x y : num) : num :=
  match x, y with
  | NaN, _ | _, NaN => NaN
  | _, _ => if lt x y then y else x
  end.

(** [Math.round]: the nearest integer, ties towards [+Infinity]. *)
Definition round (x : num) : inum :=
  match x with
  | Fin q => Int (Qfloor (q + (1 # 2)))
  | PInf => IPInf
  | NInf => INInf
  | NaN => INaN
  end.

(** Truthiness of a number: [0] and [NaN] are falsy. *)
Definition truthy (i : inum) : bool :=
  match i with
  | Int z => negb (z =? 0)%Z
  | IPInf | INInf => true
  | INaN => false
  end.

(** Truthiness of an arbitrary number. *)
Definition nonzero (x : num) : bool :=
  match x with
  | Fin q => negb (Qeq_bool q 0)
  | PInf | NInf => true
  | NaN => false
  end.

Definition isNaN (i : inum) : bool :=
  match i with INaN => true | _ => false end.

(** [Number.prototype.toString] on an integral value (decimal notation;
    the exponent notation of magnitudes from 1e21 on is not modelled). *)
Definition toString (i : inum) : string :=
  match i with
  | Int z => NilZero.string_of_int (Z.to_int z)
  | IPInf => "Infinity"
  | INInf => "-Infinity"
  | INaN => "NaN"
  end.

End Num.

Import Num.

Declare Scope num_scope.
Delimit Scope num_scope with num.
Bind Scope num_scope with num.
Infix "+" := add : num_scope.
Infix "-" := sub : num_scope.
Infix "*" := mul : num_scope.
Infix "/" := div : num_scope.
Infix "<?" := lt : num_scope.
Infix "<=?" := le : num_scope.
Infix ">?" := gt : num_scope.
Infix ">=?" := ge : num_scope.

(** ** Binary64 numbers *)

Module F64.

Import SpecFloat.

Definition prec : Z := 53.
Definition emax : Z := 1024.

(** An IEEE 754 double: a signed zero, a signed infinity, [NaN], or
    [(-1)^s * m * 2^e] with [m] below [2^53]. *)
Definition float : Type := spec_float.

(** The double nearest to an integer, ties to the even mantissa. *)
Definition ofZ (z : Z) : float := binary_normalize prec emax z 0%Z false.

(** The double that an integral value is.  [parseInt] of a text such
    as [-0] is the negative zero, read here as [+0]: a quotient or product
    with a zero operand is a zero or [NaN] whatever the sign, and both
    zeros print as [0]. *)
Definition ofInt (i : inum) : float :=
  match i with
  | Int z => ofZ z
  | IPInf => S754_infinity false
  | INInf => S754_infinity true
  | INaN => S754_nan
  end.

(** The operators [/] and [*] on doubles. *)
Definition div : float -> float -> float := SFdiv prec emax.
Definition mul : float -> float -> float := SFmul prec emax.

Definition eqb : float -> float -> bool := SFeqb.

(** The number that a double stands for; both zeros stand for 0. *)
Definition value (x : float) : num :=
  match x with
  | S754_zero _ => Fin 0
  | S754_infinity false => PInf
  | S754_infinity true => NInf
  | S754_nan => NaN
  | S754_finite s m e =>
      let sm := if s then Z.neg m else Z.pos m in
      match e with
      | Zneg p => fin (Qmake sm (2 ^ p)%positive)
      | _ => Fin (inject_Z (sm * 2 ^ e)%Z)
      end
  end.

(** [Math.round] of a double.  The result is exact: a double of magnitude
    [2^52] or more is an integer already.  [-0] is returned as [Int 0];
    both print as [0]. *)
Definition round (x : float) : inum := Num.round (value x).

Definition decimal (z : Z) : string := NilZero.string_of_int (Z.to_int z).

(** The decimal numbers [s * 10^(d-k)], for the two [s] of [k] digits next
    to [x / 10^(d-k)], that are read back as the double [x]; [d] is the
    number of digits of [x]. *)
Definition candidates (x d k : Z) : list Z :=
  (let p := 10 ^ (d - k) in
   let lo := x / p in
   List.filter (fun y => eqb (ofZ y) (ofZ x)) [lo * p; (lo + 1) * p])%Z.

(** Of these the one closest to [x]; the even [s] on a tie. *)
Definition closest (x d k : Z) : option Z :=
  match candidates x d k with
  | [] => None
  | [y] => Some y
  | y1 :: y2 :: _ =>
      match (x - y1 ?= y2 - x)%Z with
      | Lt => Some y1
      | Gt => Some y2
      | Eq => if Z.even (y1 / 10 ^ (d - k)) then Some y1 else Some y2
      end
  end.

(** The decimal number of fewest significant digits that is read back as
    [x], searched from [k] digits on. *)
Fixpoint shortest (fuel : nat) (x d k : Z) : Z :=
  match fuel with
  | O => x
  | S f =>
      if (k <? d)%Z then
        match closest x d k with
        | Some y => y
        | None => shortest f x d (k + 1)%Z
        end
      else x
  end.

Fixpoint dropZeros (s : string) : string :=
  match s with
  | EmptyString => EmptyString
  | String c r =>
      match dropZeros r with
      | EmptyString =>
          if Ascii.eqb c "0" then EmptyString else String c EmptyString
      | r' => String c r'
      end
  end.

(** The exponent notation of a digit string: [d.ddde+n]. *)
Definition exponential (ds : string) : string :=
  let e := decimal (Z.of_nat (String.length ds) - 1) in
  match dropZeros ds with
  | String c EmptyString => String c ("e+" ++ e)
  | String c r => String c ("." ++ r ++ "e+" ++ e)
  | EmptyString => ds
  end.

(** The digits of a positive integral double of [2^53] or more: the
    shortest digits that identify it, filled with zeros, in exponent
    notation from [1e21] on. *)
Definition large (x : Z) : string :=
  let d := Z.of_nat (String.length (decimal x)) in
  let ds := decimal (shortest 17 x d 1) in
  if (String.length ds <=? 21)%nat then ds else exponential ds.

(** [Number.prototype.toString] on an integral double.  Below [2^53] the
    shortest digits that identify an integer are its own decimal digits. *)
Definition toString (i : inum) : string :=
  match i with
  | Int z =>
      if (Z.abs z <? 2 ^ 53)%Z then Num.toString i
      else if (z <? 0)%Z then "-" ++ large (- z) else large z
  | _ => Num.toString i
  end.

End F64.

(** ** Strings *)

Module Str.

(** [WhiteSpace] and [LineTerminator] code units below 256. *)
Definition isWhiteSpace (c : ascii) : bool :=
  let n := N_of_ascii c in
  ((9 <=? n) && (n <=? 13) || (n =? 32) || (n =? 160))%N.

Fixpoint trimStart (s : string) : string :=
  match s with
  | EmptyString => EmptyString
  | String c r => if isWhiteSpace c then trimStart r else s
  end.

Fixpoint rev (s : string) : string :=
  match s with
  | EmptyString => EmptyString
  | String c r => rev r ++ String c EmptyString
  end.

Definition trimEnd (s : string) : string := rev (trimStart (rev s)).

(** [String.prototype.trim]. *)
Definition trim (s : string) : string := trimEnd (trimStart s).

(** Truthiness of a string: only the empty string is falsy. *)
Definition truthy (s : string) : bool :=
  match s with EmptyString => false | _ => true end.

(** Value of a digit in the given radix (10 or 16). *)
Definition digit (radix : Z) (c : ascii) : option Z :=
  let n := Z.of_N (N_of_ascii c) in
  let d :=
    (if (48 <=? n) && (n <=? 57) then Some (n - 48)
     else if (97 <=? n) && (n <=? 122) then Some (n - 87)
     else if (65 <=? n) && (n <=? 90) then Some (n - 55)
     else None)%Z in
  match d with
  | Some v => if (v <? radix)%Z then Some v else None
  | None => None
  end.

(** Reads the longest prefix of digits; [acc] is the value so far and
    [seen] tells whether a digit has been read. *)
Fixpoint digits (radix : Z) (s : string) (acc : Z) (seen : bool)
  : option Z :=
  match s with
  | EmptyString => if seen then Some acc else None
  | String c r =>
      match digit radix c with
      | Some v => digits radix r (acc * radix + v)%Z true
      | None => if seen then Some acc else None
      end
  end.

(** [parseInt(s)] with no radix argument: leading white space is skipped,
    a sign is read, a [0x]/[0X] prefix selects radix 16, and the longest
    prefix of digits is converted; [NaN] when there is none. *)
Definition parseInt (s : string) : inum :=
  let s1 := trimStart s in
  let '(sign, s2) :=
    match s1 with
    | String "-" r => ((-1)%Z, r)
    | String "+" r => (1%Z, r)
    | _ => (1%Z, s1)
    end in
  let '(radix, s3) :=
    match s2 with
    | String "0" (String "x" r) => (16%Z, r)
    | String "0" (String "X" r) => (16%Z, r)
    | _ => (10%Z, s2)
    end in
  match digits radix s3 0%Z false with
  | Some v => Int (sign * v)
  | None => INaN
  end.

End Str.

(** ** Data model *)

Inductive ToolType : Type :=
| ToolNone | ToolResize | ToolCrop | ToolFilter | ToolRotate | ToolDraw
| ToolText.

Inductive DrawMode : Type := DrawFree | DrawLine.

Inductive CropRatio : Type :=
| Custom | Square | R3_2 | R4_3 | R5_4 | R7_5 | R16_9.

Inductive EditMode : Type := ModeResize | ModeCrop.

Inductive Align : Type := AlignLeft | AlignCenter | AlignRight.

Record Point : Type := { px : num; py : num }.

(** The two shapes of object stored in [drawings]:
    [{mode:'free', color, size, points}] and
    [{mode:'line', color, size, start, end}]. *)
Inductive Stroke : Type :=
| FreeStroke (color : string) (size : inum) (points : list Point)
| LineStroke (color : string) (size : inum) (start stop : Point).

(** [interface EditorState]; an optional field is an [option]. *)
Record EditorState : Type := {
  rotation : Z;
  filter : string;
  drawings : list Stroke;
  width : option inum;
  height : option inum;
  mode : option EditMode;
  imageSrc : option string
}.

(** The style values of the text tool, copied into each new text object. *)
Record TextStyle : Type := {
  size : inum;
  color : string;
  bold : bool;
  italic : bool;
  underline : bool;
  align : Align
}.

Record TextObject : Type := {
  id : string;
  text : string;
  x : num;
  y : num;
  style : TextStyle
}.

Module CropBox.
Record t : Type := { left : num; top : num; width : num; height : num }.
Definition zero : t :=
  {| left := Fin 0; top := Fin 0; width := Fin 0; height := Fin 0 |}.
End CropBox.

(** A [DOMRect] as returned by [getBoundingClientRect]. *)
Module Rect.
Record t : Type := { left : num; top : num; width : num; height : num }.
End Rect.

(** The first argument of [handleCropBoxMouseDown] and the literal
    ['create']; [includes] decides [type.includes(side)] on these names. *)
Inductive DragType : Type :=
| Create | Move
| TopLeft | TopRight | BottomLeft | BottomRight
| HLeft | HRight | HTop | HBottom.

Inductive Side : Type := SLeft | SRight | STop | SBottom.

Definition includes (t : DragType) (s : Side) : bool :=
  match t, s with
  | TopLeft, (STop | SLeft) => true
  | TopRight, (STop | SRight) => true
  | BottomLeft, (SBottom | SLeft) => true
  | BottomRight, (SBottom | SRight) => true
  | HLeft, SLeft | HRight, SRight | HTop, STop | HBottom, SBottom => true
  | _, _ => false
  end.

Record DragSession : Type := {
  type : DragType;
  startX : num;
  startY : num;
  startBox : CropBox.t
}.

(** The hooks of the component and its [imageUrl] prop.  The visibility
    flags of the two colour popovers only drive presentation and are left
    out. *)
Record UI : Type := {
  imageUrl : string;
  history : list EditorState;
  historyIndex : Z;
  currentImage : string;
  currentState : EditorState;
  activeTool : ToolType;
  drawMode : DrawMode;
  drawColor : string;
  brushSize : inum;
  textStyle : TextStyle;
  resizeWidth : string;
  resizeHeight : string;
  maintainRatio : bool;
  originalRatio : F64.float;
  isDrawing : bool;
  startPoint : option Point;
  cropRatio : CropRatio;
  cropBox : CropBox.t;
  dragSession : option DragSession;
  isCreatingCrop : bool;
  textObjects : list TextObject;
  editingTextId : option string
}.

(** The state setters [setX] of the hooks. *)

Definition setHistory v (st : UI) : UI :=
  Build_UI (imageUrl st) v (historyIndex st) (currentImage st)
   (currentState st) (activeTool st) (drawMode st) (drawColor st)
   (brushSize st) (textStyle st) (resizeWidth st) (resizeHeight st)
   (maintainRatio st) (originalRatio st) (isDrawing st) (startPoint st)
   (cropRatio st) (cropBox st) (dragSession st) (isCreatingCrop st)
   (textObjects st) (editingTextId st).

Definition setHistoryIndex v (st : UI) : UI :=
  Build_UI (imageUrl st) (history st) v (currentImage st) (currentState st)
   (activeTool st) (drawMode st) (drawColor st) (brushSize st) (textStyle st)
   (resizeWidth st) (resizeHeight st) (maintainRatio st) (originalRatio st)
   (isDrawing st) (startPoint st) (cropRatio st) (cropBox st) (dragSession st)
   (isCreatingCrop st) (textObjects st) (editingTextId st).

Definition setCurrentImage v (st : UI) : UI :=
  Build_UI (imageUrl st) (history st) (historyIndex st) v (currentState st)
   (activeTool st) (drawMode st) (drawColor st) (brushSize st) (textStyle st)
   (resizeWidth st) (resizeHeight st) (maintainRatio st) (originalRatio st)
   (isDrawing st) (startPoint st) (cropRatio st) (cropBox st) (dragSession st)
   (isCreatingCrop st) (textObjects st) (editingTextId st).

Definition setCurrentState v (st : UI) : UI :=
  Build_UI (imageUrl st) (history st) (historyIndex st) (currentImage st) v
   (activeTool st) (drawMode st) (drawColor st) (brushSize st) (textStyle st)
   (resizeWidth st) (resizeHeight st) (maintainRatio st) (originalRatio st)
   (isDrawing st) (startPoint st) (cropRatio st) (cropBox st) (dragSession st)
   (isCreatingCrop st) (textObjects st) (editingTextId st).

Definition setActiveTool v (st : UI) : UI :=
  Build_UI (imageUrl st) (history st) (historyIndex st) (currentImage st)
   (currentState st) v (drawMode st) (drawColor st) (brushSize st)
   (textStyle st) (resizeWidth st) (resizeHeight st) (maintainRatio st)
   (originalRatio st) (isDrawing st) (startPoint st) (cropRatio st)
   (cropBox st) (dragSession st) (isCreatingCrop st) (textObjects st)
   (editingTextId st).

Definition setDrawMode v (st : UI) : UI :=
  Build_UI (imageUrl st) (history st) (historyIndex st) (currentImage st)
   (currentState st) (activeTool st) v (drawColor st) (brushSize st)
   (textStyle st) (resizeWidth st) (resizeHeight st) (maintainRatio st)
   (originalRatio st) (isDrawing st) (startPoint st) (cropRatio st)
   (cropBox st) (dragSession st) (isCreatingCrop st) (textObjects st)
   (editingTextId st).

Definition setDrawColor v (st : UI) : UI :=
  Build_UI (imageUrl st) (history st) (historyIndex st) (currentImage st)
   (currentState st) (activeTool st) (drawMode st) v (brushSize st)
   (textStyle st) (resizeWidth st) (resizeHeight st) (maintainRatio st)
   (originalRatio st) (isDrawing st) (startPoint st) (cropRatio st)
   (cropBox st) (dragSession st) (isCreatingCrop st) (textObjects st)
   (editingTextId st).

Definition setBrushSize v (st : UI) : UI :=
  Build_UI (imageUrl st) (history st) (historyIndex st) (currentImage st)
   (currentState st) (activeTool st) (drawMode st) (drawColor st) v
   (textStyle st) (resizeWidth st) (resizeHeight st) (maintainRatio st)
   (originalRatio st) (isDrawing st) (startPoint st) (cropRatio st)
   (cropBox st) (dragSession st) (isCreatingCrop st) (textObjects st)
   (editingTextId st).

Definition setTextStyle v (st : UI) : UI :=
  Build_UI (imageUrl st) (history st) (historyIndex st) (currentImage st)
   (currentState st) (activeTool st) (drawMode st) (drawColor st)
   (brushSize st) v (resizeWidth st) (resizeHeight st) (maintainRatio st)
   (originalRatio st) (isDrawing st) (startPoint st) (cropRatio st)
   (cropBox st) (dragSession st) (isCreatingCrop st) (textObjects st)
   (editingTextId st).

Definition setResizeWidth v (st : UI) : UI :=
  Build_UI (imageUrl st) (history st) (historyIndex st) (currentImage st)
   (currentState st) (activeTool st) (drawMode st) (drawColor st)
   (brushSize st) (textStyle st) v (resizeHeight st) (maintainRatio st)
   (originalRatio st) (isDrawing st) (startPoint st) (cropRatio st)
   (cropBox st) (dragSession st) (isCreatingCrop st) (textObjects st)
   (editingTextId st).

Definition setResizeHeight v (st : UI) : UI :=
  Build_UI (imageUrl st) (history st) (historyIndex st) (currentImage st)
   (currentState st) (activeTool st) (drawMode st) (drawColor st)
   (brushSize st) (textStyle st) (resizeWidth st) v (maintainRatio st)
   (originalRatio st) (isDrawing st) (startPoint st) (cropRatio st)
   (cropBox st) (dragSession st) (isCreatingCrop st) (textObjects st)
   (editingTextId st).

Definition setMaintainRatio v (st : UI) : UI :=
  Build_UI (imageUrl st) (history st) (historyIndex st) (currentImage st)
   (currentState st) (activeTool st) (drawMode st) (drawColor st)
   (brushSize st) (textStyle st) (resizeWidth st) (resizeHeight st) v
   (originalRatio st) (isDrawing st) (startPoint st) (cropRatio st)
   (cropBox st) (dragSession st) (isCreatingCrop st) (textObjects st)
   (editingTextId st).

Definition setOriginalRatio v (st : UI) : UI :=
  Build_UI (imageUrl st) (history st) (historyIndex st) (currentImage st)
   (currentState st) (activeTool st) (drawMode st) (drawColor st)
   (brushSize st) (textStyle st) (resizeWidth st) (resizeHeight st)
   (maintainRatio st) v (isDrawing st) (startPoint st) (cropRatio st)
   (cropBox st) (dragSession st) (isCreatingCrop st) (textObjects st)
   (editingTextId st).

Definition setIsDrawing v (st : UI) : UI :=
  Build_UI (imageUrl st) (history st) (historyIndex st) (currentImage st)
   (currentState st) (activeTool st) (drawMode st) (drawColor st)
   (brushSize st) (textStyle st) (resizeWidth st) (resizeHeight st)
   (maintainRatio st) (originalRatio st) v (startPoint st) (cropRatio st)
   (cropBox st) (dragSession st) (isCreatingCrop st) (textObjects st)
   (editingTextId st).

Definition setStartPoint v (st : UI) : UI :=
  Build_UI (imageUrl st) (history st) (historyIndex st) (currentImage st)
   (currentState st) (activeTool st) (drawMode st) (drawColor st)
   (brushSize st) (textStyle st) (resizeWidth st) (resizeHeight st)
   (maintainRatio st) (originalRatio st) (isDrawing st) v (cropRatio st)
   (cropBox st) (dragSession st) (isCreatingCrop st) (textObjects st)
   (editingTextId st).

Definition setCropRatio v (st : UI) : UI :=
  Build_UI (imageUrl st) (history st) (historyIndex st) (currentImage st)
   (currentState st) (activeTool st) (drawMode st) (drawColor st)
   (brushSize st) (textStyle st) (resizeWidth st) (resizeHeight st)
   (maintainRatio st) (originalRatio st) (isDrawing st) (startPoint st) v
   (cropBox st) (dragSession st) (isCreatingCrop st) (textObjects st)
   (editingTextId st).

Definition setCropBox v (st : UI) : UI :=
  Build_UI (imageUrl st) (history st) (historyIndex st) (currentImage st)
   (currentState st) (activeTool st) (drawMode st) (drawColor st)
   (brushSize st) (textStyle st) (resizeWidth st) (resizeHeight st)
   (maintainRatio st) (originalRatio st) (isDrawing st) (startPoint st)
   (cropRatio st) v (dragSession st) (isCreatingCrop st) (textObjects st)
   (editingTextId st).

Definition setDragSession v (st : UI) : UI :=
  Build_UI (imageUrl st) (history st) (historyIndex st) (currentImage st)
   (currentState st) (activeTool st) (drawMode st) (drawColor st)
   (brushSize st) (textStyle st) (resizeWidth st) (resizeHeight st)
   (maintainRatio st) (originalRatio st) (isDrawing st) (startPoint st)
   (cropRatio st) (cropBox st) v (isCreatingCrop st) (textObjects st)
   (editingTextId st).

Definition setIsCreatingCrop v (st : UI) : UI :=
  Build_UI (imageUrl st) (history st) (historyIndex st) (currentImage st)
   (currentState st) (activeTool st) (drawMode st) (drawColor st)
   (brushSize st) (textStyle st) (resizeWidth st) (resizeHeight st)
   (maintainRatio st) (originalRatio st) (isDrawing st) (startPoint st)
   (cropRatio st) (cropBox st) (dragSession st) v (textObjects st)
   (editingTextId st).

Definition setTextObjects v (st : UI) : UI :=
  Build_UI (imageUrl st) (history st) (historyIndex st) (currentImage st)
   (currentState st) (activeTool st) (drawMode st) (drawColor st)
   (brushSize st) (textStyle st) (resizeWidth st) (resizeHeight st)
   (maintainRatio st) (originalRatio st) (isDrawing st) (startPoint st)
   (cropRatio st) (cropBox st) (dragSession st) (isCreatingCrop st) v
   (editingTextId st).

Definition setEditingTextId v (st : UI) : UI :=
  Build_UI (imageUrl st) (history st) (historyIndex st) (currentImage st)
   (currentState st) (activeTool st) (drawMode st) (drawColor st)
   (brushSize st) (textStyle st) (resizeWidth st) (resizeHeight st)
   (maintainRatio st) (originalRatio st) (isDrawing st) (startPoint st)
   (cropRatio st) (cropBox st) (dragSession st) (isCreatingCrop st)
   (textObjects st) v.

Definition withImageUrl (url : string) (st : UI) : UI :=
  Build_UI url (history st) (historyIndex st) (currentImage st)
   (currentState st) (activeTool st) (drawMode st) (drawColor st)
   (brushSize st) (textStyle st) (resizeWidth st) (resizeHeight st)
   (maintainRatio st) (originalRatio st) (isDrawing st) (startPoint st)
   (cropRatio st) (cropBox st) (dragSession st) (isCreatingCrop st)
   (textObjects st) (editingTextId st).

(** Object spreads [{...s, field: v}] on an [EditorState]. *)

Definition withRotation (r : Z) (s : EditorState) : EditorState :=
  {| rotation := r; filter := filter s; drawings := drawings s;
     width := width s; height := height s; mode := mode s;
     imageSrc := imageSrc s |}.

Definition withFilter (f : string) (s : EditorState) : EditorState :=
  {| rotation := rotation s; filter := f; drawings := drawings s;
     width := width s; height := height s; mode := mode s;
     imageSrc := imageSrc s |}.

Definition withDrawings (d : list Stroke) (s : EditorState) : EditorState :=
  {| rotation := rotation s; filter := filter s; drawings := d;
     width := width s; height := height s; mode := mode s;
     imageSrc := imageSrc s |}.

Definition withSize (w h : inum) (s : EditorState) : EditorState :=
  {| rotation := rotation s; filter := filter s; drawings := drawings s;
     width := Some w; height := Some h; mode := mode s;
     imageSrc := imageSrc s |}.

Definition withMode (m : EditMode) (s : EditorState) : EditorState :=
  {| rotation := rotation s; filter := filter s; drawings := drawings s;
     width := width s; height := height s; mode := Some m;
     imageSrc := imageSrc s |}.

Definition withImageSrc (src : string) (s : EditorState) : EditorState :=
  {| rotation := rotation s; filter := filter s; drawings := drawings s;
     width := width s; height := height s; mode := mode s;
     imageSrc := Some src |}.

(** ** JavaScript arrays *)

Definition jslength {A} (l : list A) : Z := Z.of_nat (List.length l).

(** [l[i]]: [None] is [undefined]. *)
Definition jsget {A} (l : list A) (i : Z) : option A :=
  if (i <? 0)%Z then None else nth_error l (Z.to_nat i).

(** [l.slice(0, e)]: a negative [e] counts from the end. *)
Definition slice0 {A} (l : list A) (e : Z) : list A :=
  let k := if (e <? 0)%Z then Z.max (jslength l + e) 0
           else Z.min e (jslength l) in
  firstn (Z.to_nat k) l.

(** The copy [l'] of [l] with [l'[i] = v], for [i] inside the array. *)
Fixpoint replaceAt {A} (l : list A) (i : nat) (v : A) : list A :=
  match l, i with
  | [], _ => []
  | _ :: r, O => v :: r
  | a :: r, S j => a :: replaceAt r j v
  end.

(** [filters.indexOf(f)], [-1] when absent. *)
Fixpoint indexOf (l : list string) (f : string) : Z :=
  match l with
  | [] => -1
  | a :: r =>
      if String.eqb a f then 0
      else let i := indexOf r f in if (i <? 0)%Z then -1 else i + 1
  end%Z.

(** ** Truthiness of optional fields *)

Definition optNum (o : option inum) : bool :=
  match o with Some i => truthy i | None => false end.

Definition optStr (o : option string) : bool :=
  match o with Some s => Str.truthy s | None => false end.

(** [a || b] for an optional number [a] and a number [b]. *)
Definition orNum (a : option inum) (b : inum) : inum :=
  match a with
  | Some i => if truthy i then i else b
  | None => b
  end.

(** ** Edit history manager *)

(** The baseline snapshot built by the open effect and by [handleReset]. *)
Definition initialState (url : string) : EditorState :=
  {| rotation := 0; filter := "none"; drawings := [];
     width := None; height := None; mode := None; imageSrc := Some url |}.

(** The initial values of the hooks. *)
Definition initialUI (url : string) : UI :=
  {| imageUrl := url;
     history := [];
     historyIndex := -1;
     currentImage := url;
     currentState := initialState url;
     activeTool := ToolNone;
     drawMode := DrawFree;
     drawColor := "#00a9ff";
     brushSize := Int 12;
     textStyle := {| size := Int 50; color := "#00a9ff"; bold := false;
                     italic := false; underline := false;
                     align := AlignLeft |};
     resizeWidth := "2000";
     resizeHeight := "1333";
     maintainRatio := true;
     originalRatio := F64.div (F64.ofZ 2000) (F64.ofZ 1333);
     isDrawing := false;
     startPoint := None;
     cropRatio := Custom;
     cropBox := CropBox.zero;
     dragSession := None;
     isCreatingCrop := false;
     textObjects := [];
     editingTextId := None |}.

(** The effect on [isOpen]: the parent opens the modal on [url]. *)
Definition openEffect (url : string) (st : UI) : UI :=
  setActiveTool ToolNone
    (setCurrentImage url
       (setCurrentState (initialState url)
          (setHistoryIndex 0%Z
             (setHistory [initialState url] (withImageUrl url st))))).

Definition pushState (newState : EditorState) (st : UI) : UI :=
  let newHistory :=
    (slice0 (history st) (historyIndex st + 1) ++ [newState])%list in
  setCurrentState newState
    (setHistoryIndex (jslength newHistory - 1)%Z
       (setHistory newHistory st)).

(** The three conditional updates that close [handleUndo] and
    [handleRedo]: the displayed image and the resize fields follow the
    snapshot [s] where it has the field. *)
Definition showSnapshot (s : EditorState) (st : UI) : UI :=
  let st1 := match imageSrc s with
             | Some src => if Str.truthy src then setCurrentImage src st
                           else st
             | None => st
             end in
  let st2 := match width s with
             | Some w => if truthy w then setResizeWidth (toString w) st1
                         else st1
             | None => st1
             end in
  match height s with
  | Some h => if truthy h then setResizeHeight (toString h) st2 else st2
  | None => st2
  end.

Definition handleUndo (st : UI) : option UI :=
  if (historyIndex st >? 0)%Z then
    match jsget (history st) (historyIndex st - 1) with
    | Some prevState =>
        Some (showSnapshot prevState
                (setCurrentState prevState
                   (setHistoryIndex (historyIndex st - 1)%Z st)))
    | None => None
    end
  else Some st.

Definition handleRedo (st : UI) : option UI :=
  if (historyIndex st <? jslength (history st) - 1)%Z then
    match jsget (history st) (historyIndex st + 1) with
    | Some nextState =>
        Some (showSnapshot nextState
                (setCurrentState nextState
                   (setHistoryIndex (historyIndex st + 1)%Z st)))
    | None => None
    end
  else Some st.

Definition handleReset (st : UI) : UI :=
  setCropBox CropBox.zero
    (setCropRatio Custom
       (setCurrentImage (imageUrl st)
          (pushState (initialState (imageUrl st)) st))).

(** [%] is the remainder of truncated division. *)
Definition handleRotate (st : UI) : UI :=
  pushState
    (withRotation (Z.rem (rotation (currentState st) + 90) 360)
       (currentState st)) st.

Definition filters : list string :=
  ["none"; "grayscale(100%)"; "sepia(100%)"; "blur(5px)";
   "brightness(150%)"]%string.

(** [nextIdx] always lies inside [filters], so the default of [nth] is
    never returned. *)
Definition handleFilter (st : UI) : UI :=
  let currentIdx := indexOf filters (filter (currentState st)) in
  let nextIdx := Z.rem (currentIdx + 1) (jslength filters) in
  pushState
    (withFilter (nth (Z.to_nat nextIdx) filters "none"%string)
       (currentState st)) st.

(** ** Image load *)

(** [naturalW] and [naturalH] are the DOM's [unsigned long] attributes. *)
Definition handleImageLoad (naturalW naturalH : N) (st : UI)
  : option UI :=
  let w := Int (Z.of_N naturalW) in
  let h := Int (Z.of_N naturalH) in
  let st1 :=
    setOriginalRatio (F64.div (F64.ofInt w) (F64.ofInt h))
      (setResizeHeight (toString h) (setResizeWidth (toString w) st)) in
  if negb (optNum (width (currentState st))) then
    let updatedState := withSize w h (currentState st) in
    let st2 := setCurrentState updatedState st1 in
    if (jslength (history st) >? 0)%Z then
      let idx := if (historyIndex st >=? 0)%Z then historyIndex st
                 else 0%Z in
      match jsget (history st) idx with
      | Some entry =>
          Some (setHistory
                  (replaceAt (history st) (Z.to_nat idx) (withSize w h entry))
                  st2)
      | None => None
      end
    else Some (setHistory (history st) st2)
  else Some st1.

(** The effect that covers a cached image, for which [onLoad] is skipped:
    it calls [handleImageLoad] when the image is complete, has a non-zero
    natural width and the current state has no width yet. *)
Definition imageCompleteEffect (naturalW naturalH : N) (st : UI)
  : option UI :=
  if truthy (Int (Z.of_N naturalW))
     && negb (optNum (width (currentState st)))
  then handleImageLoad naturalW naturalH st
  else Some st.

(** ** Resize controller *)

Definition handleResizeApply (st : UI) : UI :=
  let w := Str.parseInt (resizeWidth st) in
  let h := Str.parseInt (resizeHeight st) in
  if negb (isNaN w) && negb (isNaN h) then
    setActiveTool ToolNone
      (pushState (withMode ModeResize (withSize w h (currentState st))) st)
  else st.

(** [onChange] of the width field. *)
Definition onResizeWidthChange (val : string) (st : UI) : UI :=
  let st1 := setResizeWidth val st in
  if maintainRatio st then
    let w := Str.parseInt val in
    if negb (isNaN w) then
      setResizeHeight
        (F64.toString (F64.round (F64.div (F64.ofInt w) (originalRatio st))))
        st1
    else st1
  else st1.

(** [onChange] of the height field. *)
Definition onResizeHeightChange (val : string) (st : UI) : UI :=
  let st1 := setResizeHeight val st in
  if maintainRatio st then
    let h := Str.parseInt val in
    if negb (isNaN h) then
      setResizeWidth
        (F64.toString (F64.round (F64.mul (F64.ofInt h) (originalRatio st))))
        st1
    else st1
  else st1.

(** ** Crop controller *)

Definition ratios (r : CropRatio) : option num :=
  match r with
  | Custom => None
  | Square => Some (ofZ 1)
  | R3_2 => Some (ofZ 3 / ofZ 2)%num
  | R4_3 => Some (ofZ 4 / ofZ 3)%num
  | R5_4 => Some (ofZ 5 / ofZ 4)%num
  | R7_5 => Some (ofZ 7 / ofZ 5)%num
  | R16_9 => Some (ofZ 16 / ofZ 9)%num
  end.

(** [finalWidth] and [finalHeight] after the validation of a custom box or
    the clamp to a preset ratio; [None] is the early [return] of a rejected
    custom box. *)
Definition cropFinalDims (r : CropRatio) (box : CropBox.t)
  (width height : num) : option (num * num) :=
  match r with
  | Custom =>
      if (CropBox.width box <? ofZ 1)%num
         || (CropBox.height box <? ofZ 1)%num then None
      else
        let finalWidth := (width * CropBox.width box / ofZ 100)%num in
        let finalHeight := (height * CropBox.height box / ofZ 100)%num in
        if (finalWidth <? ofZ 10)%num || (finalHeight <? ofZ 10)%num
        then None
        else Some (finalWidth, finalHeight)
  | _ =>
      match ratios r with
      | Some tr =>
          if nonzero tr then
            if (width / height >? tr)%num then Some ((height * tr)%num, height)
            else Some (width, (width / tr)%num)
          else Some (width, height)
      | None => Some (width, height)
      end
  end.

(** The arguments of [ctx.drawImage(img, sx, sy, sw, sh, 0, 0, dw, dh)]. *)
Record DrawParams : Type := {
  sx : num; sy : num; sw : num; sh : num; dw : inum; dh : inum
}.

(** The source rectangle [sx, sy, sw, sh] computed inside the [try]. *)
Definition cropSourceRect (r : CropRatio) (box : CropBox.t)
  (width height : num) : num * num * num * num :=
  match r with
  | Custom =>
      ((width * CropBox.left box / ofZ 100)%num,
       (height * CropBox.top box / ofZ 100)%num,
       (width * CropBox.width box / ofZ 100)%num,
       (height * CropBox.height box / ofZ 100)%num)
  | _ =>
      match ratios r with
      | Some tr =>
          if nonzero tr then
            if (width / height >? tr)%num then
              let sw := (height * tr)%num in
              (((width - sw) / ofZ 2)%num, ofZ 0, sw, height)
            else
              let sh := (width / tr)%num in
              (ofZ 0, ((height - sh) / ofZ 2)%num, width, sh)
          else (ofZ 0, ofZ 0, width, height)
      | None => (ofZ 0, ofZ 0, width, height)
      end
  end.

Record Img : Type := { naturalWidth : N; naturalHeight : N }.

(** What the browser supplies to one call of [handleCropApply]:
    [imageRef.current], whether [getContext('2d')] succeeds, and the data
    URL that drawing and encoding yield for given draw parameters ([None]
    when [drawImage] or [toDataURL] throws). *)
Record CropEnv : Type := {
  img : option Img;
  context2d : bool;
  toDataURL : DrawParams -> option string
}.

(** [currentState.width || img.naturalWidth] and its counterpart. *)
Definition sourceWidth (im : Img) (st : UI) : inum :=
  orNum (width (currentState st)) (Int (Z.of_N (naturalWidth im))).

Definition sourceHeight (im : Img) (st : UI) : inum :=
  orNum (height (currentState st)) (Int (Z.of_N (naturalHeight im))).

Definition handleCropApply (env : CropEnv) (st : UI) : UI :=
  match img env with
  | None => st
  | Some im =>
      let width := sourceWidth im st in
      let height := sourceHeight im st in
      if negb (truthy width) || negb (truthy height) then st
      else
        match cropFinalDims (cropRatio st) (cropBox st)
                (toNum width) (toNum height) with
        | None => st
        | Some (finalWidth, finalHeight) =>
            let roundedWidth := round finalWidth in
            let roundedHeight := round finalHeight in
            if negb (context2d env) then st
            else
              let '(sx, sy, sw, sh) :=
                cropSourceRect (cropRatio st) (cropBox st)
                  (toNum width) (toNum height) in
              match toDataURL env
                      {| sx := sx; sy := sy; sw := sw; sh := sh;
                         dw := roundedWidth; dh := roundedHeight |} with
              | Some croppedDataUrl =>
                  setActiveTool ToolNone
                    (setCropBox CropBox.zero
                       (setResizeHeight (toString roundedHeight)
                          (setResizeWidth (toString roundedWidth)
                             (pushState
                                (withImageSrc croppedDataUrl
                                   (withMode ModeCrop
                                      (withSize roundedWidth roundedHeight
                                         (currentState st))))
                                (setCurrentImage croppedDataUrl
                                   (setOriginalRatio
                                      (F64.div (F64.ofInt roundedWidth)
                                         (F64.ofInt roundedHeight))
                                      st))))))
              | None => setActiveTool ToolNone st
              end
        end
  end.

(** The cancel button of the crop toolbar. *)
Definition cropCancel (st : UI) : UI :=
  setActiveTool ToolNone (setCropBox CropBox.zero (setCropRatio Custom st)).

Record MouseEvt : Type := { clientX : num; clientY : num }.

Definition handleCropBoxMouseDown (e : MouseEvt) (t : DragType) (st : UI)
  : UI :=
  setDragSession
    (Some {| type := t; startX := clientX e; startY := clientY e;
             startBox := cropBox st |}) st.

(** [Math.max(0, Math.min(100, ((c - origin) / extent) * 100))]. *)
Definition percent (c origin extent : num) : num :=
  max (ofZ 0) (min (ofZ 100) ((c - origin) / extent * ofZ 100)%num).

(** [container] is the bounding rectangle of the image's parent element,
    [None] when the element is missing; [now] is [Date.now()]. *)
Definition handleEditorMouseDown (e : MouseEvt) (container : option Rect.t)
  (now : Z) (st : UI) : UI :=
  match activeTool st with
  | ToolText =>
      match container with
      | None => st
      | Some rect =>
          let xPercent :=
            percent (clientX e) (Rect.left rect) (Rect.width rect) in
          let yPercent :=
            percent (clientY e) (Rect.top rect) (Rect.height rect) in
          let newTextId := ("text-" ++ toString (Int now))%string in
          let newText :=
            {| id := newTextId; text := ""; x := xPercent; y := yPercent;
               style := textStyle st |} in
          setEditingTextId (Some newTextId)
            (setTextObjects (textObjects st ++ [newText])%list st)
      end
  | ToolCrop =>
      match cropRatio st with
      | Custom =>
          match container with
          | None => st
          | Some rect =>
              let startXPercent :=
                percent (clientX e) (Rect.left rect) (Rect.width rect) in
              let startYPercent :=
                percent (clientY e) (Rect.top rect) (Rect.height rect) in
              let box :=
                {| CropBox.left := startXPercent;
                   CropBox.top := startYPercent;
                   CropBox.width := ofZ 0; CropBox.height := ofZ 0 |} in
              setDragSession
                (Some {| type := Create; startX := clientX e;
                         startY := clientY e; startBox := box |})
                (setCropBox box (setIsCreatingCrop true st))
          end
      | _ => st
      end
  | _ => st
  end.

(** The box of a drag in progress, from the session's start box and the
    deltas to the pointer-down origin. *)
Definition dragBox (ds : DragSession) (deltaX deltaY : num) : CropBox.t :=
  let sb := startBox ds in
  let five := ofZ 5 in
  let hundred := ofZ 100 in
  let b1 :=
    match type ds with
    | Create =>
        let '(l, w) :=
          if (deltaX >=? ofZ 0)%num then
            (CropBox.left sb, min (hundred - CropBox.left sb)%num deltaX)
          else
            let newLeft := max (ofZ 0) (CropBox.left sb + deltaX)%num in
            (newLeft, (CropBox.left sb - newLeft)%num) in
        let '(t, h) :=
          if (deltaY >=? ofZ 0)%num then
            (CropBox.top sb, min (hundred - CropBox.top sb)%num deltaY)
          else
            let newTop := max (ofZ 0) (CropBox.top sb + deltaY)%num in
            (newTop, (CropBox.top sb - newTop)%num) in
        {| CropBox.left := l; CropBox.top := t;
           CropBox.width := w; CropBox.height := h |}
    | Move =>
        {| CropBox.left :=
             max (ofZ 0) (min (hundred - CropBox.width sb)%num
                            (CropBox.left sb + deltaX)%num);
           CropBox.top :=
             max (ofZ 0) (min (hundred - CropBox.height sb)%num
                            (CropBox.top sb + deltaY)%num);
           CropBox.width := CropBox.width sb;
           CropBox.height := CropBox.height sb |}
    | t =>
        if includes t SRight then
          {| CropBox.left := CropBox.left sb; CropBox.top := CropBox.top sb;
             CropBox.width :=
               max five (min (hundred - CropBox.left sb)%num
                           (CropBox.width sb + deltaX)%num);
             CropBox.height := CropBox.height sb |}
        else if includes t SLeft then
          let possibleX :=
            max (ofZ 0) (min (CropBox.left sb + CropBox.width sb - five)%num
                           (CropBox.left sb + deltaX)%num) in
          {| CropBox.left := possibleX; CropBox.top := CropBox.top sb;
             CropBox.width :=
               (CropBox.width sb + (CropBox.left sb - possibleX))%num;
             CropBox.height := CropBox.height sb |}
        else sb
    end in
  match type ds with
  | Create => b1
  | t =>
      if includes t SBottom then
        {| CropBox.left := CropBox.left b1; CropBox.top := CropBox.top b1;
           CropBox.width := CropBox.width b1;
           CropBox.height :=
             max five (min (hundred - CropBox.top b1)%num
                         (CropBox.height sb + deltaY)%num) |}
      else if includes t STop then
        let possibleY :=
          max (ofZ 0) (min (CropBox.top sb + CropBox.height sb - five)%num
                         (CropBox.top sb + deltaY)%num) in
        {| CropBox.left := CropBox.left b1; CropBox.top := possibleY;
           CropBox.width := CropBox.width b1;
           CropBox.height :=
             (CropBox.height sb + (CropBox.top sb - possibleY))%num |}
      else b1
  end.

Definition handleEditorMouseMove (e : MouseEvt) (container : option Rect.t)
  (st : UI) : UI :=
  match dragSession st with
  | None => st
  | Some ds =>
      match container with
      | None => st
      | Some rect =>
          let deltaX :=
            ((clientX e - startX ds) / Rect.width rect * ofZ 100)%num in
          let deltaY :=
            ((clientY e - startY ds) / Rect.height rect * ofZ 100)%num in
          setCropBox (dragBox ds deltaX deltaY) st
      end
  end.

Definition handleEditorMouseUp (st : UI) : UI :=
  setIsCreatingCrop false (setDragSession None st).

(** ** Draw controller *)

(** [canvasRef.current] as a handler sees it: the pixel size of the canvas
    and its bounding rectangle. *)
Module Canvas.
Record t : Type := { width : num; height : num; rect : Rect.t }.
End Canvas.

(** Pointer position in canvas pixels:
    [(e.clientX - rect.left) * (canvas.width / rect.width)]. *)
Definition canvasPoint (e : MouseEvt) (c : Canvas.t) : Point :=
  let rect := Canvas.rect c in
  let scaleX := (Canvas.width c / Rect.width rect)%num in
  let scaleY := (Canvas.height c / Rect.height rect)%num in
  {| px := ((clientX e - Rect.left rect) * scaleX)%num;
     py := ((clientY e - Rect.top rect) * scaleY)%num |}.

Definition handleCanvasMouseDown (e : MouseEvt) (canvas : option Canvas.t)
  (st : UI) : UI :=
  match activeTool st with
  | ToolDraw =>
      match canvas with
      | None => st
      | Some c =>
          let p := canvasPoint e c in
          let st1 := setStartPoint (Some p) (setIsDrawing true st) in
          match drawMode st with
          | DrawFree =>
              let newDrawing :=
                FreeStroke (drawColor st) (brushSize st) [p] in
              setCurrentState
                (withDrawings
                   (drawings (currentState st) ++ [newDrawing])%list
                   (currentState st)) st1
          | DrawLine => st1
          end
      end
  | _ => st
  end.

(** The copy of [ds] whose last stroke has [p] appended to its [points].
    [None] is the [TypeError] raised when there is no last stroke or when
    it has no [points]. *)
Fixpoint appendPoint (ds : list Stroke) (p : Point)
  : option (list Stroke) :=
  match ds with
  | [] => None
  | [FreeStroke c s pts] => Some [FreeStroke c s (pts ++ [p])%list]
  | [LineStroke _ _ _ _] => None
  | d :: r =>
      match appendPoint r p with
      | Some r' => Some (d :: r')
      | None => None
      end
  end.

Definition handleCanvasMouseMove (e : MouseEvt) (canvas : option Canvas.t)
  (st : UI) : option UI :=
  match isDrawing st, activeTool st with
  | true, ToolDraw =>
      match canvas with
      | None => Some st
      | Some c =>
          let p := canvasPoint e c in
          match drawMode st with
          | DrawFree =>
              match appendPoint (drawings (currentState st)) p with
              | Some newDrawings =>
                  Some (setCurrentState
                          (withDrawings newDrawings (currentState st)) st)
              | None => None
              end
          | DrawLine => Some st
          end
      end
  | _, _ => Some st
  end.

Definition handleCanvasMouseUp (e : MouseEvt) (canvas : option Canvas.t)
  (st : UI) : UI :=
  match isDrawing st, activeTool st with
  | true, ToolDraw =>
      match canvas with
      | None => st
      | Some c =>
          let p := canvasPoint e c in
          let st1 :=
            match drawMode st, startPoint st with
            | DrawLine, Some sp =>
                let newDrawing :=
                  LineStroke (drawColor st) (brushSize st) sp p in
                pushState
                  (withDrawings
                     (drawings (currentState st) ++ [newDrawing])%list
                     (currentState st)) st
            | DrawLine, None => st
            | DrawFree, _ => pushState (currentState st) st
            end in
          setStartPoint None (setIsDrawing false st1)
      end
  | _, _ => st
  end.

(** The draw button of the top bar toggles the tool. *)
Definition toggleDraw (st : UI) : UI :=
  match activeTool st with
  | ToolDraw => setActiveTool ToolNone st
  | _ => setActiveTool ToolDraw st
  end.

Definition isHex (c : ascii) : bool :=
  match Str.digit 16 c with Some _ => true | None => false end.

Fixpoint hexOnly (s : string) : string :=
  match s with
  | EmptyString => EmptyString
  | String c r => if isHex c then String c (hexOnly r) else hexOnly r
  end.

(** [onChange] of a hexadecimal colour field: the characters that are not
    hexadecimal digits are dropped, and a result of at most six digits
    becomes the colour. *)
Definition hexColor (val : string) : option string :=
  let v := hexOnly val in
  if (String.length v <=? 6)%nat then Some ("#" ++ v)%string else None.

Definition onDrawHexChange (val : string) (st : UI) : UI :=
  match hexColor val with
  | Some c => setDrawColor c st
  | None => st
  end.

(** ** Text annotation controller *)

Definition withText (v : string) (t : TextObject) : TextObject :=
  {| id := id t; text := v; x := x t; y := y t; style := style t |}.

(** [textObjects.filter(t => t.id !== i)]. *)
Definition removeId (i : string) (l : list TextObject) : list TextObject :=
  List.filter (fun t => negb (String.eqb (id t) i)) l.

(** The handlers below are those attached to the element rendered for
    [textObj], an entry of [textObjects]. *)

Definition onTextChange (textObj : TextObject) (val : string) (st : UI)
  : UI :=
  setTextObjects
    (List.map (fun t => if String.eqb (id t) (id textObj)
                        then withText val t else t)
       (textObjects st)) st.

(** The body of the timeout started by [onBlur]. *)
Definition onTextBlur (textObj : TextObject) (st : UI) : UI :=
  let st1 :=
    if negb (Str.truthy (Str.trim (text textObj)))
    then setTextObjects (removeId (id textObj) (textObjects st)) st
    else st in
  setEditingTextId None st1.

Inductive Key : Type := KeyEnter | KeyEscape | KeyOther.

(** [onKeyDown] of the text input; Enter blurs the input, which runs
    [onBlur]. *)
Definition onTextKeyDown (textObj : TextObject) (k : Key) (st : UI) : UI :=
  match k with
  | KeyEnter => onTextBlur textObj st
  | KeyEscape =>
      setEditingTextId None
        (setTextObjects (removeId (id textObj) (textObjects st)) st)
  | KeyOther => st
  end.

(** [onClick] of a committed text: it enters edit mode. *)
Definition onTextClick (textObj : TextObject) (st : UI) : UI :=
  setEditingTextId (Some (id textObj)) st.

(** The delete button, and Delete or Backspace on a committed text. *)
Definition onTextDelete (textObj : TextObject) (st : UI) : UI :=
  setTextObjects (removeId (id textObj) (textObjects st)) st.

Definition withSize' (v : inum) (s : TextStyle) : TextStyle :=
  {| size := v; color := color s; bold := bold s; italic := italic s;
     underline := underline s; align := align s |}.

Definition withColor (v : string) (s : TextStyle) : TextStyle :=
  {| size := size s; color := v; bold := bold s; italic := italic s;
     underline := underline s; align := align s |}.

Definition withBold (v : bool) (s : TextStyle) : TextStyle :=
  {| size := size s; color := color s; bold := v; italic := italic s;
     underline := underline s; align := align s |}.

Definition withItalic (v : bool) (s : TextStyle) : TextStyle :=
  {| size := size s; color := color s; bold := bold s; italic := v;
     underline := underline s; align := align s |}.

Definition withUnderline (v : bool) (s : TextStyle) : TextStyle :=
  {| size := size s; color := color s; bold := bold s; italic := italic s;
     underline := v; align := align s |}.

Definition withAlign (v : Align) (s : TextStyle) : TextStyle :=
  {| size := size s; color := color s; bold := bold s; italic := italic s;
     underline := underline s; align := v |}.

Definition onTextHexChange (val : string) (st : UI) : UI :=
  match hexColor val with
  | Some c => setTextStyle (withColor c (textStyle st)) st
  | None => st
  end.

(** ** The component as a transition system *)

(** One constructor per handler attached to the rendered elements, and one
    per effect.  [ClickTool] stands for the buttons that select a tool and
    [Save] for the save button, whose handler sets no hook.  The arguments
    are what the browser supplies to the handler: the typed text, the
    pointer position, the elements behind the refs. *)
Inductive Event : Type :=
| Open (url : string)
| ImageLoad (naturalW naturalH : N)
| ImageComplete (naturalW naturalH : N)
| Undo | Redo | Reset
| ClickTool (t : ToolType)
| ClickFilter | ClickRotate | ClickDraw
| Save
| ResizeWidthChange (val : string)
| ResizeHeightChange (val : string)
| MaintainRatioChange (b : bool)
| ResizeApply | ResizeCancel
| SelectCropRatio (r : CropRatio)
| CropApply (env : CropEnv)
| CropCancel
| CropBoxMouseDown (e : MouseEvt) (t : DragType)
| EditorMouseDown (e : MouseEvt) (container : option Rect.t) (now : Z)
| EditorMouseMove (e : MouseEvt) (container : option Rect.t)
| EditorMouseUp
| CanvasMouseDown (e : MouseEvt) (canvas : option Canvas.t)
| CanvasMouseMove (e : MouseEvt) (canvas : option Canvas.t)
| CanvasMouseUp (e : MouseEvt) (canvas : option Canvas.t)
| SelectDrawMode (m : DrawMode)
| PickDrawColor (c : string)
| DrawHexChange (val : string)
| BrushSizeChange (val : string)
| ToggleBold | ToggleItalic | ToggleUnderline
| SelectAlign (a : Align)
| PickTextColor (c : string)
| TextHexChange (val : string)
| TextSizeChange (val : string)
| TextChange (i : nat) (val : string)
| TextBlur (i : nat)
| TextKeyDown (i : nat) (k : Key)
| TextClick (i : nat)
| TextDelete (i : nat).

(** Whether the text input (rather than the committed text) is rendered
    for [t]. *)
Definition editing (t : TextObject) (st : UI) : bool :=
  match editingTextId st with
  | Some i => String.eqb i (id t)
  | None => false
  end.

(** Runs a handler of the element rendered for the [i]-th text object; an
    event on an element that is not rendered leaves the state as it is. *)
Definition onTextObject (i : nat) (inputShown : bool)
  (h : TextObject -> UI -> UI) (st : UI) : UI :=
  match nth_error (textObjects st) i with
  | Some t => if Bool.eqb (editing t st) inputShown then h t st else st
  | None => st
  end.

Definition step (ev : Event) (st : UI) : option UI :=
  match ev with
  | Open url => Some (openEffect url st)
  | ImageLoad w h => handleImageLoad w h st
  | ImageComplete w h => imageCompleteEffect w h st
  | Undo => handleUndo st
  | Redo => handleRedo st
  | Reset => Some (handleReset st)
  | ClickTool t => Some (setActiveTool t st)
  | ClickFilter => Some (setActiveTool ToolFilter (handleFilter st))
  | ClickRotate => Some (setActiveTool ToolRotate (handleRotate st))
  | ClickDraw => Some (toggleDraw st)
  | Save => Some st
  | ResizeWidthChange val => Some (onResizeWidthChange val st)
  | ResizeHeightChange val => Some (onResizeHeightChange val st)
  | MaintainRatioChange b => Some (setMaintainRatio b st)
  | ResizeApply => Some (handleResizeApply st)
  | ResizeCancel => Some (setActiveTool ToolNone st)
  | SelectCropRatio r => Some (setCropRatio r st)
  | CropApply env => Some (handleCropApply env st)
  | CropCancel => Some (cropCancel st)
  | CropBoxMouseDown e t => Some (handleCropBoxMouseDown e t st)
  | EditorMouseDown e c now => Some (handleEditorMouseDown e c now st)
  | EditorMouseMove e c => Some (handleEditorMouseMove e c st)
  | EditorMouseUp => Some (handleEditorMouseUp st)
  | CanvasMouseDown e c => Some (handleCanvasMouseDown e c st)
  | CanvasMouseMove e c => handleCanvasMouseMove e c st
  | CanvasMouseUp e c => Some (handleCanvasMouseUp e c st)
  | SelectDrawMode m => Some (setDrawMode m st)
  | PickDrawColor c => Some (setDrawColor c st)
  | DrawHexChange val => Some (onDrawHexChange val st)
  | BrushSizeChange val => Some (setBrushSize (Str.parseInt val) st)
  | ToggleBold =>
      Some (setTextStyle
              (withBold (negb (bold (textStyle st))) (textStyle st)) st)
  | ToggleItalic =>
      Some (setTextStyle
              (withItalic (negb (italic (textStyle st))) (textStyle st)) st)
  | ToggleUnderline =>
      Some (setTextStyle
              (withUnderline (negb (underline (textStyle st)))
                 (textStyle st)) st)
  | SelectAlign a => Some (setTextStyle (withAlign a (textStyle st)) st)
  | PickTextColor c => Some (setTextStyle (withColor c (textStyle st)) st)
  | TextHexChange val => Some (onTextHexChange val st)
  | TextSizeChange val =>
      Some (setTextStyle (withSize' (Str.parseInt val) (textStyle st)) st)
  | TextChange i val =>
      Some (onTextObject i true (fun t => onTextChange t val) st)
  | TextBlur i => Some (onTextObject i true onTextBlur st)
  | TextKeyDown i k =>
      Some (onTextObject i true (fun t => onTextKeyDown t k) st)
  | TextClick i => Some (onTextObject i false onTextClick st)
  | TextDelete i => Some (onTextObject i false onTextDelete st)
  end.

(** Runs a sequence of events, stopping at the first one without a
    successor state. *)
Fixpoint run (evs : list Event) (st : UI) : option UI :=
  match evs with
  | [] => Some st
  | ev :: r =>
      match step ev st with
      | Some st' => run r st'
      | None => None
      end
  end.

(** The states the component can be in: the initial hooks, closed under
    the handlers. *)
Inductive reachable : UI -> Prop :=
| reach_init : forall url, reachable (initialUI url)
| reach_step : forall ev st st',
    reachable st -> step ev st = Some st' -> reachable st'.

(** ** Derived notions used by the statements *)

(** [N] calls of [pushState], in the order of the list. *)
Definition pushAll (ss : list EditorState) (st : UI) : UI :=
  fold_left (fun acc s => pushState s acc) ss st.

(** [n] calls of [handleUndo]. *)
Fixpoint undoN (n : nat) (st : UI) : option UI :=
  match n with
  | O => Some st
  | S k =>
      match handleUndo st with
      | Some st' => undoN k st'
      | None => None
      end
  end.

(** The cursor designates an entry of a non-empty history, or the history
    is still empty with the cursor at [-1]. *)
Definition cursorOk (st : UI) : Prop :=
  (history st = [] /\ historyIndex st = (-1)%Z)
  \/ (0 <= historyIndex st < jslength (history st))%Z.

(** The aspect ratio that the name of a preset stands for, as the
    specification lists them (square = 1, 3:2, 4:3, 5:4, 7:5, 16:9); the
    custom mode names none. *)
Definition ratioOf (r : CropRatio) : option Q :=
  match r with
  | Custom => None
  | Square => Some 1%Q
  | R3_2 => Some (3 # 2)%Q
  | R4_3 => Some (4 # 3)%Q
  | R5_4 => Some (5 # 4)%Q
  | R7_5 => Some (7 # 5)%Q
  | R16_9 => Some (16 # 9)%Q
  end.

(** A drag on the canvas before its pointer-up: the pointer-down and the
    pointer-moves that follow it. *)
Definition midDrag (e0 : MouseEvt) (es : list MouseEvt) (c : Canvas.t)
  : list Event :=
  CanvasMouseDown e0 (Some c)
  :: List.map (fun e => CanvasMouseMove e (Some c)) es.

(** The whole drag, closed by its pointer-up. *)
Definition drag (e0 : MouseEvt) (es : list MouseEvt) (eu : MouseEvt)
  (c : Canvas.t) : list Event :=
  (midDrag e0 es c ++ [CanvasMouseUp eu (Some c)])%list.

(** [q] is [v] clamped to the interval from 0 to 100. *)
Definition clamped (v q : Q) : Prop :=
  (0 <= q <= 100
   /\ (0 <= v <= 100 -> q == v)
   /\ (v < 0 -> q == 0)
   /\ (100 < v -> q == 100))%Q.

(** The reading of the blur rule by which only an empty text is dropped:
    a blurred object with a non-empty text stays in the collection. *)
Definition blurKeepsNonEmpty : Prop :=
  forall (textObj : TextObject) (st : UI),
    In textObj (textObjects st) -> text textObj <> ""%string ->
    In textObj (textObjects (onTextBlur textObj st)).

(** The reading of reset by which it leaves no drag session pending. *)
Definition resetClearsDrag : Prop :=
  forall st : UI, dragSession (handleReset st) = None.


(** Width and height of a snapshot, where present, are positive integers. *)
Definition positiveDims (s : EditorState) : Prop :=
  (forall w, width s = Some w -> exists z, w = Int z /\ (0 < z)%Z)
  /\ (forall h, height s = Some h -> exists z, h = Int z /\ (0 < z)%Z).

(** A sample session: image, container rectangle, canvas and pointer. *)
Definition sampleUrl : string := "photo.png".

Definition sampleRect : Rect.t :=
  {| Rect.left := ofZ 0; Rect.top := ofZ 0;
     Rect.width := ofZ 1200; Rect.height := ofZ 800 |}.

Definition sampleCanvas : Canvas.t :=
  {| Canvas.width := ofZ 1200; Canvas.height := ofZ 800;
     Canvas.rect := sampleRect |}.

Definition pointer (px py : Z) : MouseEvt :=
  {| clientX := ofZ px; clientY := ofZ py |}.

(** Three snapshots that differ in their rotation. *)
Definition sampleStates : list EditorState :=
  [withRotation 90 (initialState sampleUrl);
   withRotation 180 (initialState sampleUrl);
   withRotation 270 (initialState sampleUrl)].

(** The state in which a run from the initial hooks ends; the initial
    hooks themselves when the run has no successor state. *)
Definition after (evs : list Event) : UI :=
  match run evs (initialUI sampleUrl) with
  | Some st => st
  | None => initialUI sampleUrl
  end.

(** A browser that holds an image of the given natural size and encodes
    any crop; the data URL it returns spells the destination size. *)
Definition browser (w h : N) : CropEnv :=
  {| img := Some {| naturalWidth := w; naturalHeight := h |};
     context2d := true;
     toDataURL := fun p =>
       Some ("data:" ++ toString (dw p) ++ "x" ++ toString (dh p))%string |}.


(** The square preset selected on a 2000 by 1333 image. *)
Definition squareEvents : list Event :=
  [Open sampleUrl; ImageLoad 2000 1333; ClickTool ToolCrop;
   SelectCropRatio Square].

(** The draw tool selected on a 1200 by 800 image. *)
Definition drawEvents : list Event :=
  [Open sampleUrl; ImageLoad 1200 800; ClickDraw].

(** The displayed state is the snapshot under the cursor. *)
Definition coherent (st : UI) : Prop :=
  jsget (history st) (historyIndex st) = Some (currentState st).

(** During a drag on the canvas the start point is known, and outside one
    the displayed state is the snapshot under the cursor. *)
Definition settled (st : UI) : Prop :=
  (isDrawing st = true -> startPoint st <> None)
  /\ (isDrawing st = false -> history st = [] \/ coherent st).


(** ** Further derived notions *)

(** The rotation and the filter that one click on the rotate or the filter
    button yields, as [handleRotate] and [handleFilter] compute them. *)
Definition nextRotation (r : Z) : Z := Z.rem (r + 90) 360.

Definition nextFilter (f : string) : string :=
  nth (Z.to_nat (Z.rem (indexOf filters f + 1) (jslength filters)))
    filters "none"%string.

Definition rotationOk (s : EditorState) : Prop :=
  In (rotation s) [0; 90; 180; 270]%Z.

Definition filterOk (s : EditorState) : Prop := In (filter s) filters.

(** The events that move through the history or restart it. *)
Definition rewinds (ev : Event) : bool :=
  match ev with
  | Open _ | Undo | Redo | Reset => true
  | _ => false
  end.


(** An image loaded, then one rotation and one filter. *)
Definition editedEvents : list Event :=
  [Open sampleUrl; ImageLoad 1200 800; ClickRotate; ClickFilter].

(** A freehand drag that has just started on the sample canvas. *)
Definition strokeEvents : list Event :=
  (drawEvents ++ [CanvasMouseDown (pointer 10 10) (Some sampleCanvas)])%list.




(** A crop box of finite coordinates that lies inside the image. *)
Definition insideImage (l t w h : Q) : Prop :=
  (0 <= l /\ 0 <= w /\ l + w <= 100 /\ 0 <= t /\ 0 <= h /\ t + h <= 100)%Q.

(** * Properties *)

(** ** Arrays *)

Lemma jslength_nonneg {A} (l : list A) : (0 <= jslength l)%Z.
Proof. unfold jslength. lia. Qed.

Lemma jslength_app {A} (l r : list A) :
  jslength (l ++ r) = (jslength l + jslength r)%Z.
Proof. unfold jslength. rewrite length_app. lia. Qed.

Lemma slice0_firstn {A} (l : list A) (e : Z) :
  (0 <= e <= jslength l)%Z -> slice0 l e = firstn (Z.to_nat e) l.
Proof.
  intros He. unfold slice0.
  destruct (Z.ltb_spec e 0); [lia|].
  now rewrite Z.min_l by lia.
Qed.

Lemma slice0_all {A} (l : list A) : slice0 l (jslength l) = l.
Proof.
  rewrite slice0_firstn by (pose proof (jslength_nonneg l); lia).
  unfold jslength. rewrite Nat2Z.id. apply firstn_all.
Qed.

Lemma jslength_slice0 {A} (l : list A) (e : Z) :
  (0 <= e <= jslength l)%Z -> jslength (slice0 l e) = e.
Proof.
  intros He. rewrite slice0_firstn by assumption.
  unfold jslength in *. rewrite length_firstn. lia.
Qed.



Lemma jsget_Some {A} (l : list A) (i : Z) :
  (0 <= i < jslength l)%Z -> exists a, jsget l i = Some a.
Proof.
  intros Hi. unfold jsget, jslength in *.
  destruct (Z.ltb_spec i 0); [lia|].
  destruct (nth_error l (Z.to_nat i)) eqn:E; [eauto|].
  apply nth_error_None in E. lia.
Qed.

Lemma jsget_nth_error {A} (l : list A) (n : nat) :
  jsget l (Z.of_nat n) = nth_error l n.
Proof.
  unfold jsget. destruct (Z.ltb_spec (Z.of_nat n) 0); [lia|].
  now rewrite Nat2Z.id.
Qed.

Lemma length_replaceAt {A} (l : list A) (i : nat) (v : A) :
  List.length (replaceAt l i v) = List.length l.
Proof.
  revert i. induction l as [|a l IH]; intros [|i]; simpl; auto.
Qed.


Lemma nth_error_replaceAt_eq {A} (l : list A) (i : nat) (v : A) :
  i < List.length l -> nth_error (replaceAt l i v) i = Some v.
Proof.
  revert i. induction l as [|a l IH]; intros [|i] Hi; simpl in *;
    try lia; auto. apply IH. lia.
Qed.

(** ** Edit history manager *)

Lemma showSnapshot_history s st :
  history (showSnapshot s st) = history st
  /\ historyIndex (showSnapshot s st) = historyIndex st
  /\ currentState (showSnapshot s st) = currentState st.
Proof.
  unfold showSnapshot.
  destruct (imageSrc s) as [src|]; [destruct (Str.truthy src)|];
    (destruct (width s) as [w|]; [destruct (truthy w)|]);
    (destruct (height s) as [h|]; [destruct (truthy h)|]);
    repeat split; reflexivity.
Qed.

Lemma pushState_history s st :
  history (pushState s st)
  = (slice0 (history st) (historyIndex st + 1) ++ [s])%list.
Proof. reflexivity. Qed.

Lemma pushState_index s st :
  historyIndex (pushState s st)
  = (jslength (history (pushState s st)) - 1)%Z.
Proof. reflexivity. Qed.

Lemma pushState_current s st : currentState (pushState s st) = s.
Proof. reflexivity. Qed.

(** After a push from the tip, the history has grown by the new state. *)
Lemma pushState_at_tip s st :
  historyIndex st = (jslength (history st) - 1)%Z ->
  history (pushState s st) = (history st ++ [s])%list
  /\ historyIndex (pushState s st) = jslength (history st).
Proof.
  intros Htip. rewrite pushState_index, pushState_history, Htip.
  replace (jslength (history st) - 1 + 1)%Z with (jslength (history st))
    by lia.
  rewrite slice0_all. split; [reflexivity|].
  rewrite jslength_app. unfold jslength at 2. simpl. lia.
Qed.

Lemma last_cons_default {A} (l : list A) (a d : A) :
  last (a :: l) d = last l a.
Proof.
  revert a d. induction l as [|b l IH]; intros a d; [reflexivity|].
  change (last (a :: b :: l) d) with (last (b :: l) d).
  now rewrite (IH b d), (IH b a).
Qed.

Lemma pushAll_at_tip ss : forall st,
  historyIndex st = (jslength (history st) - 1)%Z ->
  history (pushAll ss st) = (history st ++ ss)%list
  /\ historyIndex (pushAll ss st)
     = (jslength (history st) + jslength ss - 1)%Z
  /\ currentState (pushAll ss st) = last ss (currentState st).
Proof.
  induction ss as [|s ss IH]; intros st Htip.
  - simpl. rewrite app_nil_r. unfold jslength at 2. simpl.
    repeat split; lia.
  - destruct (pushState_at_tip s st Htip) as [Hh Hi].
    assert (Htip' : historyIndex (pushState s st)
                    = (jslength (history (pushState s st)) - 1)%Z)
      by apply pushState_index.
    destruct (IH _ Htip') as (IHh & IHi & IHc).
    change (pushAll (s :: ss) st) with (pushAll ss (pushState s st)).
    rewrite IHh, IHi, IHc, Hh, pushState_current, <- app_assoc.
    repeat split.
    + rewrite jslength_app. unfold jslength. simpl. lia.
    + now rewrite last_cons_default.
Qed.

Lemma pushState_coherent s st : coherent (pushState s st).
Proof.
  unfold coherent. rewrite pushState_index, pushState_history, pushState_current.
  set (l := slice0 (history st) (historyIndex st + 1)).
  rewrite jslength_app. unfold jslength. simpl.
  replace (Z.of_nat (List.length l) + 1 - 1)%Z
    with (Z.of_nat (List.length l)) by lia.
  rewrite jsget_nth_error, nth_error_app2, Nat.sub_diag by lia.
  reflexivity.
Qed.

Lemma pushAll_snoc l s st : pushAll (l ++ [s]) st = pushState s (pushAll l st).
Proof. unfold pushAll. now rewrite fold_left_app. Qed.

Lemma pushAll_coherent ss st : ss <> [] -> coherent (pushAll ss st).
Proof.
  destruct ss as [|s ss] using rev_ind; [congruence|].
  intros _. rewrite pushAll_snoc. apply pushState_coherent.
Qed.

Lemma handleUndo_noop st :
  (historyIndex st <= 0)%Z -> handleUndo st = Some st.
Proof.
  intros H. unfold handleUndo.
  destruct (Z.gtb_spec (historyIndex st) 0); [lia|reflexivity].
Qed.

Lemma handleRedo_noop st :
  (jslength (history st) - 1 <= historyIndex st)%Z ->
  handleRedo st = Some st.
Proof.
  intros H. unfold handleRedo.
  destruct (Z.ltb_spec (historyIndex st) (jslength (history st) - 1));
    [lia|reflexivity].
Qed.

Lemma handleUndo_moves st :
  (0 < historyIndex st < jslength (history st))%Z ->
  exists st', handleUndo st = Some st'
    /\ history st' = history st
    /\ historyIndex st' = (historyIndex st - 1)%Z
    /\ coherent st'.
Proof.
  intros H. unfold handleUndo.
  destruct (Z.gtb_spec (historyIndex st) 0); [|lia].
  destruct (jsget_Some (history st) (historyIndex st - 1)) as [p Hp]; [lia|].
  rewrite Hp. eexists; split; [reflexivity|].
  unfold coherent.
  destruct (showSnapshot_history p
              (setCurrentState p (setHistoryIndex (historyIndex st - 1) st)))
    as (-> & -> & ->).
  simpl. auto.
Qed.

Lemma handleRedo_moves st :
  (-1 <= historyIndex st < jslength (history st) - 1)%Z ->
  exists st', handleRedo st = Some st'
    /\ history st' = history st
    /\ historyIndex st' = (historyIndex st + 1)%Z
    /\ coherent st'.
Proof.
  intros H. unfold handleRedo.
  destruct (Z.ltb_spec (historyIndex st) (jslength (history st) - 1)); [|lia].
  destruct (jsget_Some (history st) (historyIndex st + 1)) as [p Hp]; [lia|].
  rewrite Hp. eexists; split; [reflexivity|].
  unfold coherent.
  destruct (showSnapshot_history p
              (setCurrentState p (setHistoryIndex (historyIndex st + 1) st)))
    as (-> & -> & ->).
  simpl. auto.
Qed.

Lemma undoN_moves k : forall st,
  coherent st ->
  (Z.of_nat k <= historyIndex st < jslength (history st))%Z ->
  exists st', undoN k st = Some st'
    /\ history st' = history st
    /\ historyIndex st' = (historyIndex st - Z.of_nat k)%Z
    /\ coherent st'.
Proof.
  induction k as [|k IH]; intros st Hc Hk.
  - exists st. simpl. repeat split; auto. lia.
  - destruct (handleUndo_moves st) as (st1 & Hu & Hh & Hi & Hc1); [lia|].
    destruct (IH st1 Hc1) as (st' & Hu' & Hh' & Hi' & Hc');
      [rewrite Hh, Hi; lia|].
    exists st'. simpl. rewrite Hu.
    repeat split; auto; try congruence. lia.
Qed.

(** C1: starting from the empty history of the initial hooks, [N] pushes
    leave the cursor at [N-1] with the pushed states as history; [k] undos
    ([k < N]) walk back through the pushed states in reverse order, and
    [N-1] undos show the first pushed state with the cursor at 0; undo
    at cursor 0 and redo at the tip change nothing. *)
Theorem C1_push_then_undo (url : string) (ss : list EditorState) :
  let st := pushAll ss (initialUI url) in
  historyIndex st = (jslength ss - 1)%Z
  /\ history st = ss
  /\ (forall k, (k < List.length ss)%nat ->
        exists st', undoN k st = Some st'
          /\ historyIndex st' = (jslength ss - 1 - Z.of_nat k)%Z
          /\ history st' = ss
          /\ nth_error ss (List.length ss - 1 - k) = Some (currentState st'))
  /\ (forall s0 rest, ss = s0 :: rest ->
        exists st', undoN (List.length rest) st = Some st'
          /\ currentState st' = s0 /\ historyIndex st' = 0%Z)
  /\ (forall u, historyIndex u = 0%Z -> handleUndo u = Some u)
  /\ (forall u, historyIndex u = (jslength (history u) - 1)%Z ->
        handleRedo u = Some u).
Proof.
  intros st.
  destruct (pushAll_at_tip ss (initialUI url) eq_refl) as (Hh & Hi & _).
  fold st in Hh, Hi. simpl in Hh, Hi.
  assert (Hundo : forall k, (k < List.length ss)%nat ->
            exists st', undoN k st = Some st'
              /\ historyIndex st' = (jslength ss - 1 - Z.of_nat k)%Z
              /\ history st' = ss
              /\ nth_error ss (List.length ss - 1 - k)
                 = Some (currentState st')).
  { intros k Hk.
    assert (Hne : ss <> []) by (destruct ss; simpl in Hk; [lia|congruence]).
    destruct (undoN_moves k st (pushAll_coherent ss _ Hne))
      as (st' & Hu & Hh' & Hi' & Hc').
    { rewrite Hh, Hi. unfold jslength. simpl. lia. }
    exists st'. rewrite Hh in Hh'. rewrite Hi in Hi'.
    unfold jslength in *. simpl in Hi'.
    split; [exact Hu|]. split; [lia|]. split; [exact Hh'|].
    unfold coherent in Hc'. rewrite Hh', Hi' in Hc'.
    rewrite <- Hc', <- jsget_nth_error. f_equal. lia. }
  repeat split; auto.
  - intros s0 rest ->.
    destruct (Hundo (List.length rest)) as (st' & Hu & Hi' & _ & Hn);
      [simpl; lia|].
    exists st'. split; [exact Hu|]. split.
    + assert (E : (List.length (s0 :: rest) - 1 - List.length rest)%nat
                  = 0%nat)
        by (change (List.length (s0 :: rest)) with (S (List.length rest));
            lia).
      rewrite E in Hn. simpl in Hn. congruence.
    + rewrite Hi'. unfold jslength.
      change (List.length (s0 :: rest)) with (S (List.length rest)). lia.
  - intros u Hu. apply handleUndo_noop. lia.
  - intros u Hu. apply handleRedo_noop. lia.
Qed.

(** An effective undo followed by a redo gives back the history, the
    cursor and, when it was the snapshot under the cursor, the displayed
    state. *)
Lemma undo_then_redo (st : UI) :
  (0 < historyIndex st < jslength (history st))%Z -> coherent st ->
  exists u r, handleUndo st = Some u /\ handleRedo u = Some r
    /\ currentState r = currentState st
    /\ history r = history st
    /\ historyIndex r = historyIndex st.
Proof.
  intros Hidx Hcoh.
  destruct (handleUndo_moves st Hidx) as (u & Hu & Huh & Hui & _).
  destruct (handleRedo_moves u) as (r & Hr & Hrh & Hri & Hrc);
    [rewrite Huh, Hui; lia|].
  exists u, r. split; [exact Hu|]. split; [exact Hr|].
  assert (Hi2 : historyIndex r = historyIndex st) by (rewrite Hri, Hui; lia).
  assert (Hh2 : history r = history st) by congruence.
  unfold coherent in *. rewrite Hh2, Hi2, Hcoh in Hrc.
  repeat split; congruence.
Qed.

(** C2: [pushState] keeps the entries up to the cursor, drops every later
    one, appends the new state and puts the cursor on it; an undo followed
    by a push therefore discards the states that redo could reach and makes
    redo a no-op, whereas an undo followed by a redo gives back the same
    history, cursor and displayed state. *)
Theorem C2_push_truncates_redo (st : UI) (s : EditorState)
  (Hidx : (-1 <= historyIndex st < jslength (history st))%Z) :
  history (pushState s st)
  = (firstn (Z.to_nat (historyIndex st + 1)) (history st) ++ [s])%list
  /\ historyIndex (pushState s st) = (historyIndex st + 1)%Z
  /\ historyIndex (pushState s st)
     = (jslength (history (pushState s st)) - 1)%Z
  /\ currentState (pushState s st) = s
  /\ ((0 < historyIndex st)%Z ->
      exists u, handleUndo st = Some u
        /\ history (pushState s u)
           = (firstn (Z.to_nat (historyIndex st)) (history st) ++ [s])%list
        /\ historyIndex (pushState s u) = historyIndex st
        /\ handleRedo (pushState s u) = Some (pushState s u))
  /\ ((0 < historyIndex st)%Z -> coherent st ->
      exists u r, handleUndo st = Some u /\ handleRedo u = Some r
        /\ currentState r = currentState st
        /\ history r = history st
        /\ historyIndex r = historyIndex st).
Proof.
  assert (Hpush : forall v : UI,
            (-1 <= historyIndex v < jslength (history v))%Z ->
            history (pushState s v)
            = (firstn (Z.to_nat (historyIndex v + 1)) (history v) ++ [s])%list
            /\ historyIndex (pushState s v) = (historyIndex v + 1)%Z).
  { intros v Hv. rewrite pushState_index, pushState_history.
    rewrite jslength_app, jslength_slice0 by lia.
    rewrite slice0_firstn by lia. split; [reflexivity|].
    unfold jslength. simpl. lia. }
  destruct (Hpush st Hidx) as [Hh Hi].
  split; [exact Hh|]. split; [exact Hi|].
  split; [apply pushState_index|]. split; [reflexivity|]. split.
  - intros Hpos.
    destruct (handleUndo_moves st) as (u & Hu & Huh & Hui & _); [lia|].
    exists u. split; [exact Hu|].
    destruct (Hpush u) as [Hh' Hi']; [rewrite Huh, Hui; lia|].
    rewrite Hh', Hi', Huh, Hui.
    replace (historyIndex st - 1 + 1)%Z with (historyIndex st) by lia.
    repeat split.
    apply handleRedo_noop. rewrite pushState_index. lia.
  - intros Hpos Hcoh. apply undo_then_redo; [lia|exact Hcoh].
Qed.

(** The cursor stays inside the history along every run of the component,
    so that neither [handleUndo] nor [handleRedo] ever reads past it. *)
Lemma cursorOk_pushState s st : cursorOk st -> cursorOk (pushState s st).
Proof.
  intros _. right. rewrite pushState_index, pushState_history.
  unfold jslength. rewrite length_app. simpl. lia.
Qed.

(** ** Numbers *)

Section NumFacts.

Local Open Scope Q_scope.

Lemma Qltb_lt (a b : Q) : Qltb a b = true <-> a < b.
Proof.
  unfold Qltb. rewrite Qlt_alt.
  destruct (a ?= b); split; congruence.
Qed.

Lemma Qltb_ge (a b : Q) : Qltb a b = false <-> b <= a.
Proof.
  split; intros H.
  - apply Qnot_lt_le. intros Hlt. apply Qltb_lt in Hlt. congruence.
  - destruct (Qltb a b) eqn:E; [|reflexivity].
    apply Qltb_lt in E. exfalso. apply (Qlt_not_le _ _ E H).
Qed.

Lemma Qeq_bool_false (a b : Q) : ~ a == b -> Qeq_bool a b = false.
Proof.
  intros H. destruct (Qeq_bool a b) eqn:E; [|reflexivity].
  apply Qeq_bool_eq in E. contradiction.
Qed.

Lemma div_Fin (a b : Q) :
  ~ b == 0 -> (Fin a / Fin b)%num = Fin (Qred (a / b)).
Proof. intros H. unfold div. now rewrite Qeq_bool_false. Qed.

Lemma mul_Fin (a b : Q) : (Fin a * Fin b)%num = Fin (Qred (a * b)).
Proof. reflexivity. Qed.

Lemma sub_Fin (a b : Q) :
  (Fin a - Fin b)%num = Fin (Qred (a + Qred (- b))).
Proof. reflexivity. Qed.

Lemma add_Fin (a b : Q) : (Fin a + Fin b)%num = Fin (Qred (a + b)).
Proof. reflexivity. Qed.

Lemma lt_Fin (a b : Q) : (Fin a <? Fin b)%num = true <-> a < b.
Proof. apply Qltb_lt. Qed.

(** [Math.round] returns the integer within one half of its argument,
    the upper one on a tie. *)
Lemma round_Fin (q : Q) :
  exists z : Z, round (Fin q) = Int z
    /\ inject_Z z - (1 # 2) <= q /\ q < inject_Z z + (1 # 2).
Proof.
  exists (Qfloor (q + (1 # 2))). split; [reflexivity|].
  pose proof (Qfloor_le (q + (1 # 2))) as Hle.
  pose proof (Qlt_floor (q + (1 # 2))) as Hlt.
  rewrite inject_Z_plus in Hlt. change (inject_Z 1) with 1 in Hlt.
  set (f := inject_Z (Qfloor (q + (1 # 2)))) in *. clearbody f.
  split; lra.
Qed.

Lemma round_ofZ (z : Z) : round (ofZ z) = Int z.
Proof.
  unfold round, ofZ. f_equal.
  pose proof (Qfloor_le (inject_Z z + (1 # 2))) as Hle.
  assert (Hge : (Qfloor (inject_Z z) <= Qfloor (inject_Z z + (1 # 2)))%Z)
    by (apply Qfloor_resp_le; lra).
  rewrite Qfloor_Z in Hge.
  set (f := Qfloor (inject_Z z + (1 # 2))) in *.
  assert (H1 : inject_Z f < inject_Z (z + 1)).
  { rewrite inject_Z_plus. change (inject_Z 1) with 1. lra. }
  rewrite <- Zlt_Qlt in H1. lia.
Qed.

End NumFacts.

(** ** Crop controller *)


Lemma ratios_ratioOf (r : CropRatio) (tr : Q) :
  ratioOf r = Some tr -> ratios r = Some (Fin tr) /\ (0 < tr)%Q.
Proof.
  destruct r; simpl; intros H; inversion H; subst; split;
    reflexivity.
Qed.

Lemma cropSourceRect_preset (r : CropRatio) (box : CropBox.t)
  (W H : num) (tr : num) :
  ratios r = Some tr -> nonzero tr = true ->
  cropSourceRect r box W H
  = if (W / H >? tr)%num
    then (((W - H * tr) / ofZ 2)%num, ofZ 0, (H * tr)%num, H)
    else (ofZ 0, ((H - W / tr) / ofZ 2)%num, W, (W / tr)%num).
Proof.
  intros Hr Hnz. destruct r; try discriminate Hr;
    unfold cropSourceRect; rewrite Hr, Hnz; reflexivity.
Qed.

Lemma cropFinalDims_preset (r : CropRatio) (box : CropBox.t)
  (W H : num) (tr : num) :
  ratios r = Some tr -> nonzero tr = true ->
  cropFinalDims r box W H
  = if (W / H >? tr)%num then Some ((H * tr)%num, H)
    else Some (W, (W / tr)%num).
Proof.
  intros Hr Hnz. destruct r; try discriminate Hr;
    unfold cropFinalDims; rewrite Hr, Hnz; reflexivity.
Qed.

Section PresetCrop.

Local Open Scope Q_scope.

(** C4: for a source of [wz] by [hz] pixels and a preset of ratio [tr],
    the source rectangle of the crop is the largest centred rectangle of
    ratio [tr] inside the source: when [wz / hz > tr] its width is
    [hz * tr] and it is centred horizontally, otherwise its height is
    [wz / tr] and it is centred vertically; the new state carries the
    rounded width and height of that rectangle. *)
Theorem C4_preset_crop_rectangle (r : CropRatio) (tr : Q)
  (box : CropBox.t) (wz hz : Z)
  (Hr : ratioOf r = Some tr) (Hw : (0 < wz)%Z) (Hh : (0 < hz)%Z) :
  let w := inject_Z wz in
  let h := inject_Z hz in
  ratios r = Some (Fin tr)
  /\ exists qx qy qw qh : Q,
       cropSourceRect r box (ofZ wz) (ofZ hz)
       = (Fin qx, Fin qy, Fin qw, Fin qh)
       /\ cropFinalDims r box (ofZ wz) (ofZ hz) = Some (Fin qw, Fin qh)
       /\ (tr < w / h ->
           qw == h * tr /\ qh == h /\ qx == (w - qw) / 2 /\ qy == 0)
       /\ (~ tr < w / h ->
           qw == w /\ qh == w / tr /\ qx == 0 /\ qy == (h - qh) / 2)
       /\ qw / qh == tr
       /\ (0 <= qx /\ 0 <= qy /\ qx + qw <= w /\ qy + qh <= h)
       /\ (qx + qw / 2 == w / 2 /\ qy + qh / 2 == h / 2)
       /\ (forall w' h' : Q,
             0 < h' -> w' == tr * h' -> w' <= w -> h' <= h ->
             w' <= qw /\ h' <= qh)
       /\ (forall env st im url,
             cropRatio st = r -> cropBox st = box -> img env = Some im ->
             sourceWidth im st = Int wz -> sourceHeight im st = Int hz ->
             context2d env = true ->
             toDataURL env
               {| sx := Fin qx; sy := Fin qy; sw := Fin qw; sh := Fin qh;
                  dw := round (Fin qw); dh := round (Fin qh) |}
             = Some url ->
             width (currentState (handleCropApply env st))
             = Some (round (Fin qw))
             /\ height (currentState (handleCropApply env st))
                = Some (round (Fin qh))
             /\ imageSrc (currentState (handleCropApply env st))
                = Some url).
Proof.
  intros w h.
  destruct (ratios_ratioOf r tr Hr) as [Hrat Htr].
  split; [exact Hrat|].
  assert (Hw' : 0 < w) by (unfold w; rewrite <- (Zlt_Qlt 0); exact Hw).
  assert (Hh' : 0 < h) by (unfold h; rewrite <- (Zlt_Qlt 0); exact Hh).
  assert (Hnz : nonzero (Fin tr) = true).
  { simpl. rewrite Qeq_bool_false; [reflexivity|]. lra. }
  pose proof (cropSourceRect_preset r box (ofZ wz) (ofZ hz) _ Hrat Hnz)
    as Hrect.
  pose proof (cropFinalDims_preset r box (ofZ wz) (ofZ hz) _ Hrat Hnz)
    as Hdims.
  assert (Hdiv : (ofZ wz / ofZ hz)%num = Fin (Qred (w / h))).
  { apply div_Fin. fold h. lra. }
  rewrite Hdiv in Hrect, Hdims.
  unfold gt in Hrect, Hdims. unfold lt in Hrect, Hdims.
  set (x := w / h) in *.
  assert (Hx : x * h == w) by (unfold x; field; lra).
  assert (Hcmp : Qltb tr (Qred x) = true <-> tr < x).
  { rewrite Qltb_lt. now rewrite Qred_correct. }
  assert (Hfinish : forall qx qy qw qh : Q,
    cropSourceRect r box (ofZ wz) (ofZ hz)
    = (Fin qx, Fin qy, Fin qw, Fin qh) ->
    cropFinalDims r box (ofZ wz) (ofZ hz) = Some (Fin qw, Fin qh) ->
    forall env st im url,
      cropRatio st = r -> cropBox st = box -> img env = Some im ->
      sourceWidth im st = Int wz -> sourceHeight im st = Int hz ->
      context2d env = true ->
      toDataURL env
        {| sx := Fin qx; sy := Fin qy; sw := Fin qw; sh := Fin qh;
           dw := round (Fin qw); dh := round (Fin qh) |}
      = Some url ->
      width (currentState (handleCropApply env st))
      = Some (round (Fin qw))
      /\ height (currentState (handleCropApply env st))
         = Some (round (Fin qh))
      /\ imageSrc (currentState (handleCropApply env st)) = Some url).
  { intros qx qy qw qh Hre Hdi env st im url Hcr Hbox Him Hsw Hsh Hctx
      Hurl.
    unfold handleCropApply. rewrite Him, Hsw, Hsh.
    assert (Ht : negb (truthy (Int wz)) || negb (truthy (Int hz)) = false).
    { simpl. destruct (Z.eqb_spec wz 0); [lia|].
      destruct (Z.eqb_spec hz 0); [lia|]. reflexivity. }
    rewrite Ht, Hcr, Hbox. simpl toNum. rewrite Hdi, Hctx, Hre. simpl negb.
    cbv iota. rewrite Hurl. repeat split. }
  destruct (Qltb tr (Qred x)) eqn:E.
  - assert (Hlt : tr < x) by (apply Hcmp; reflexivity).
    assert (Hfit : h * tr < w) by nra.
    unfold ofZ in Hrect, Hdims. fold h w in Hrect, Hdims.
    rewrite mul_Fin, sub_Fin in Hrect. rewrite mul_Fin in Hdims.
    rewrite div_Fin in Hrect by (change (inject_Z 2) with 2; lra).
    eexists _, _, _, _. split; [exact Hrect|]. split; [exact Hdims|].
    pose proof (Hfinish _ _ _ _ Hrect Hdims) as Hfin.
    clear Hfinish Hrect Hdims.
    change (inject_Z 2) with 2 in *. change (inject_Z 0) with 0 in *.
    assert (Hqw : Qred (h * tr) == h * tr) by apply Qred_correct.
    set (qw := Qred (h * tr)) in *.
    assert (Hqx : Qred (Qred (w + Qred (- qw)) / 2) == (w - qw) / 2)
      by (rewrite !Qred_correct; reflexivity).
    set (qx := Qred (Qred (w + Qred (- qw)) / 2)) in *.
    clearbody qx qw.
    split; [intros _; repeat split; auto; reflexivity|].
    split; [intros Hn; contradiction|].
    split; [rewrite Hqw; field; lra|].
    clear Hx Hcmp E Hdiv Hlt. clearbody x w h.
    unfold Qdiv in Hqx |- *. change (/ 2) with (1 # 2) in *.
    split; [repeat split; nra|].
    split; [split; nra|].
    split; [|exact Hfin].
    intros w' h' Hh0 Hw'h' Hle1 Hle2. split; [|exact Hle2]. nra.
  - assert (Hge : x <= tr).
    { apply Qltb_ge in E. now rewrite Qred_correct in E. }
    assert (Hfit : w <= h * tr) by nra.
    unfold ofZ in Hrect, Hdims. fold h w in Hrect, Hdims.
    rewrite div_Fin in Hrect, Hdims by lra.
    rewrite sub_Fin in Hrect.
    rewrite div_Fin in Hrect by (change (inject_Z 2) with 2; lra).
    eexists _, _, _, _. split; [exact Hrect|]. split; [exact Hdims|].
    pose proof (Hfinish _ _ _ _ Hrect Hdims) as Hfin.
    clear Hfinish Hrect Hdims.
    change (inject_Z 2) with 2 in *. change (inject_Z 0) with 0 in *.
    assert (Hqh : Qred (w / tr) == w / tr) by apply Qred_correct.
    set (qh := Qred (w / tr)) in *.
    assert (Hqy : Qred (Qred (h + Qred (- qh)) / 2) == (h - qh) / 2)
      by (rewrite !Qred_correct; reflexivity).
    set (qy := Qred (Qred (h + Qred (- qh)) / 2)) in *.
    clearbody qy qh.
    assert (Hqh' : qh * tr == w) by (rewrite Hqh; field; lra).
    assert (Hqh0 : 0 < qh) by nra.
    assert (Hqhh : qh <= h) by nra.
    split; [intros Hn; exfalso; apply (Qlt_not_le _ _ Hn Hge)|].
    split; [intros _; repeat split; auto; reflexivity|].
    split; [rewrite <- Hqh'; field; lra|].
    clear Hx Hcmp E Hdiv Hge Hqh. clearbody x w h.
    unfold Qdiv in Hqy |- *. change (/ 2) with (1 # 2) in *.
    split; [repeat split; nra|].
    split; [split; nra|].
    split; [|exact Hfin].
    intros w' h' Hh0 Hw'h' Hle1 Hle2. split; [exact Hle1|]. nra.
Qed.

End PresetCrop.

(** ** Draw controller *)

Lemma run_app (a b : list Event) : forall st,
  run (a ++ b) st
  = match run a st with Some m => run b m | None => None end.
Proof.
  induction a as [|ev a IH]; intros st; simpl; [reflexivity|].
  destruct (step ev st); [apply IH|reflexivity].
Qed.

Lemma appendPoint_last (base : list Stroke) c s pts p :
  appendPoint (base ++ [FreeStroke c s pts]) p
  = Some (base ++ [FreeStroke c s (pts ++ [p])])%list.
Proof.
  induction base as [|d base IH]; [reflexivity|].
  simpl app. simpl appendPoint. rewrite IH.
  destruct (base ++ [FreeStroke c s pts])%list eqn:E;
    [destruct base; discriminate E|].
  destruct d; reflexivity.
Qed.

(** One pointer-move of a freehand drag appends one point to the last
    stroke and touches nothing else but [currentState.drawings]. *)
Lemma freehand_move (e : MouseEvt) (c : Canvas.t) (st : UI) base col sz pts :
  isDrawing st = true -> activeTool st = ToolDraw ->
  drawMode st = DrawFree ->
  drawings (currentState st) = (base ++ [FreeStroke col sz pts])%list ->
  handleCanvasMouseMove e (Some c) st
  = Some (setCurrentState
            (withDrawings
               (base ++ [FreeStroke col sz (pts ++ [canvasPoint e c])])%list
               (currentState st)) st).
Proof.
  intros Hd Ht Hm Hdr. unfold handleCanvasMouseMove.
  now rewrite Hd, Ht, Hm, Hdr, appendPoint_last.
Qed.

Lemma freehand_moves (c : Canvas.t) (es : list MouseEvt) :
  forall (st : UI) base col sz pts,
  isDrawing st = true -> activeTool st = ToolDraw ->
  drawMode st = DrawFree ->
  drawings (currentState st) = (base ++ [FreeStroke col sz pts])%list ->
  exists mid,
    run (List.map (fun e => CanvasMouseMove e (Some c)) es) st = Some mid
    /\ drawings (currentState mid)
       = (base ++ [FreeStroke col sz
                     (pts ++ List.map (fun e => canvasPoint e c) es)])%list
    /\ history mid = history st /\ historyIndex mid = historyIndex st
    /\ isDrawing mid = true /\ activeTool mid = ToolDraw
    /\ drawMode mid = DrawFree.
Proof.
  induction es as [|e es IH]; intros st base col sz pts Hd Ht Hm Hdr.
  - exists st. simpl. rewrite app_nil_r. auto 10.
  - simpl run. rewrite (freehand_move e c st base col sz pts) by assumption.
    destruct (IH (setCurrentState
                    (withDrawings
                       (base ++ [FreeStroke col sz
                                   (pts ++ [canvasPoint e c])])%list
                       (currentState st)) st)
                base col sz (pts ++ [canvasPoint e c])%list)
      as (mid & Hrun & Hdr' & Hh & Hi & Hrest); try assumption;
      [reflexivity|].
    exists mid. split; [exact Hrun|]. split.
    + rewrite Hdr'. simpl. now rewrite <- app_assoc.
    + rewrite Hh, Hi. auto.
Qed.

Lemma line_moves (c : Canvas.t) (es : list MouseEvt) (st : UI) :
  drawMode st = DrawLine ->
  run (List.map (fun e => CanvasMouseMove e (Some c)) es) st = Some st.
Proof.
  intros Hm. induction es as [|e es IH]; [reflexivity|].
  simpl. unfold handleCanvasMouseMove. rewrite Hm.
  destruct (isDrawing st), (activeTool st); exact IH.
Qed.

(** C5: with the draw tool active, a freehand drag shows, after its
    pointer-down and any number of pointer-moves, one new stroke at the end
    of the live drawings holding the points of these events in order, while
    the history is untouched; the pointer-up pushes that state once.  A
    line drag leaves the state and the history alone until the pointer-up,
    which pushes once a state with one new line stroke from the
    pointer-down point to the pointer-up point. *)
Theorem C5_draw_gestures (st : UI) (c : Canvas.t) (e0 eu : MouseEvt)
  (es : list MouseEvt) (Htool : activeTool st = ToolDraw) :
  let pt := fun e => canvasPoint e c in
  (drawMode st = DrawFree ->
   exists mid fin,
     run (midDrag e0 es c) st = Some mid
     /\ drawings (currentState mid)
        = (drawings (currentState st)
           ++ [FreeStroke (drawColor st) (brushSize st)
                 (List.map pt (e0 :: es))])%list
     /\ history mid = history st
     /\ historyIndex mid = historyIndex st
     /\ run (drag e0 es eu c) st = Some fin
     /\ currentState fin = currentState mid
     /\ history fin
        = (slice0 (history st) (historyIndex st + 1)
           ++ [currentState mid])%list
     /\ historyIndex fin = (jslength (history fin) - 1)%Z
     /\ isDrawing fin = false)
  /\ (drawMode st = DrawLine ->
      exists mid fin,
        run (midDrag e0 es c) st = Some mid
        /\ currentState mid = currentState st
        /\ history mid = history st
        /\ historyIndex mid = historyIndex st
        /\ run (drag e0 es eu c) st = Some fin
        /\ currentState fin
           = withDrawings
               (drawings (currentState st)
                ++ [LineStroke (drawColor st) (brushSize st)
                      (pt e0) (pt eu)])%list
               (currentState st)
        /\ history fin
           = (slice0 (history st) (historyIndex st + 1)
              ++ [currentState fin])%list
        /\ historyIndex fin = (jslength (history fin) - 1)%Z
        /\ isDrawing fin = false).
Proof.
  intros pt. split; intros Hmode.
  - set (down := handleCanvasMouseDown e0 (Some c) st).
    assert (Hdown : down
              = setCurrentState
                  (withDrawings
                     (drawings (currentState st)
                      ++ [FreeStroke (drawColor st) (brushSize st) [pt e0]])
                     (currentState st))
                  (setStartPoint (Some (pt e0)) (setIsDrawing true st))).
    { unfold down, handleCanvasMouseDown. now rewrite Htool, Hmode. }
    destruct (freehand_moves c es down (drawings (currentState st))
                (drawColor st) (brushSize st) [pt e0])
      as (mid & Hrun & Hdr & Hh & Hi & Hd & Ht & Hm);
      try (rewrite Hdown; simpl; auto; fail).
    assert (Hmid : run (midDrag e0 es c) st = Some mid) by exact Hrun.
    exists mid.
    exists (setStartPoint None
              (setIsDrawing false (pushState (currentState mid) mid))).
    split; [exact Hmid|]. split; [exact Hdr|].
    split; [rewrite Hh, Hdown; reflexivity|].
    split; [rewrite Hi, Hdown; reflexivity|].
    split.
    { unfold drag. rewrite run_app, Hmid. simpl.
      unfold handleCanvasMouseUp. now rewrite Hd, Ht, Hm. }
    split; [reflexivity|]. split.
    { simpl. rewrite Hh, Hi, Hdown. reflexivity. }
    split; reflexivity.
  - set (down := handleCanvasMouseDown e0 (Some c) st).
    assert (Hdown : down
              = setStartPoint (Some (pt e0)) (setIsDrawing true st)).
    { unfold down, handleCanvasMouseDown. now rewrite Htool, Hmode. }
    assert (Hmid : run (midDrag e0 es c) st = Some down).
    { simpl. apply line_moves. rewrite Hdown. exact Hmode. }
    exists down.
    eexists. split; [exact Hmid|].
    split; [rewrite Hdown; reflexivity|].
    split; [rewrite Hdown; reflexivity|].
    split; [rewrite Hdown; reflexivity|].
    split.
    { unfold drag. rewrite run_app, Hmid. simpl.
      unfold handleCanvasMouseUp. rewrite Hdown. simpl.
      rewrite Htool, Hmode. reflexivity. }
    repeat split.
Qed.

(** ** Text annotation controller *)

Section TextFacts.

Local Open Scope Q_scope.

(** [Math.max(0, Math.min(100, v))] of a finite [v] is its clamp. *)
Lemma clamp_Fin (v : Q) :
  exists q : Q,
    max (ofZ 0) (min (ofZ 100) (Fin v)) = Fin q /\ clamped v q.
Proof.
  unfold clamped, min, max, ofZ, lt.
  change (inject_Z 100) with 100. change (inject_Z 0) with 0.
  destruct (Qltb v 100) eqn:E1.
  - apply Qltb_lt in E1. destruct (Qltb 0 v) eqn:E2.
    + apply Qltb_lt in E2. exists v. repeat split; try lra.
    + apply Qltb_ge in E2. exists 0. repeat split; try lra.
  - apply Qltb_ge in E1.
    assert (E2 : Qltb 0 100 = true) by reflexivity. rewrite E2.
    exists 100. repeat split; try lra.
Qed.

Lemma percent_Fin (c o e : Q) :
  ~ e == 0 ->
  exists q : Q,
    percent (Fin c) (Fin o) (Fin e) = Fin q
    /\ clamped ((c - o) / e * 100) q.
Proof.
  intros He. unfold percent.
  rewrite sub_Fin, div_Fin by exact He.
  change (ofZ 100) with (Fin 100). rewrite mul_Fin.
  destruct (clamp_Fin (Qred (Qred (Qred (c + Qred (- o)) / e) * 100)))
    as (q & Hq & Hc).
  exists q. split; [exact Hq|].
  assert (Hv : Qred (Qred (Qred (c + Qred (- o)) / e) * 100)
               == (c - o) / e * 100)
    by (rewrite !Qred_correct; reflexivity).
  unfold clamped in *. rewrite Hv in Hc. exact Hc.
Qed.

Lemma removeId_not_In (t : TextObject) (l : list TextObject) :
  ~ In t (removeId (id t) l).
Proof.
  unfold removeId. intros H. apply filter_In in H. destruct H as [_ H].
  now rewrite String.eqb_refl in H.
Qed.

Lemma truthy_empty (s : string) :
  Str.truthy s = false <-> s = ""%string.
Proof. destruct s; simpl; split; congruence. Qed.

(** C6 (amended): with the text tool active, a click on a container of
    non-degenerate size appends exactly one text object with empty text,
    placed at the click's percentage position clamped to the interval
    from 0 to 100 on both axes, and makes it the edited one; a blur
    removes the object when its text is empty after [trim()] (empty or
    white space only) and otherwise keeps the collection as it is, and in
    both cases leaves edit mode; Escape removes the object whatever its
    text. *)
Theorem C6_text_lifecycle (st : UI) (now : Z) (cx cy l t w h : Q)
  (Htool : activeTool st = ToolText)
  (Hw : ~ w == 0) (Hh : ~ h == 0) :
  let e := {| clientX := Fin cx; clientY := Fin cy |} in
  let rect := {| Rect.left := Fin l; Rect.top := Fin t;
                 Rect.width := Fin w; Rect.height := Fin h |} in
  let st' := handleEditorMouseDown e (Some rect) now st in
  (exists obj qx qy,
      textObjects st' = (textObjects st ++ [obj])%list
      /\ id obj = ("text-" ++ toString (Int now))%string
      /\ text obj = ""%string
      /\ x obj = Fin qx /\ y obj = Fin qy
      /\ clamped ((cx - l) / w * 100) qx
      /\ clamped ((cy - t) / h * 100) qy
      /\ style obj = textStyle st
      /\ editingTextId st' = Some (id obj))
  /\ (forall textObj u,
        Str.trim (text textObj) = ""%string ->
        textObjects (onTextBlur textObj u)
        = removeId (id textObj) (textObjects u)
        /\ ~ In textObj (textObjects (onTextBlur textObj u))
        /\ editingTextId (onTextBlur textObj u) = None)
  /\ (forall textObj u,
        Str.trim (text textObj) <> ""%string ->
        textObjects (onTextBlur textObj u) = textObjects u
        /\ editingTextId (onTextBlur textObj u) = None)
  /\ (forall textObj u,
        textObjects (onTextKeyDown textObj KeyEscape u)
        = removeId (id textObj) (textObjects u)
        /\ ~ In textObj (textObjects (onTextKeyDown textObj KeyEscape u))
        /\ editingTextId (onTextKeyDown textObj KeyEscape u) = None).
Proof.
  intros e rect st'. split; [|split; [|split]].
  - destruct (percent_Fin cx l w Hw) as (qx & Hqx & Hcx).
    destruct (percent_Fin cy t h Hh) as (qy & Hqy & Hcy).
    unfold st', handleEditorMouseDown. rewrite Htool.
    eexists _, qx, qy. simpl.
    split; [reflexivity|]. split; [reflexivity|]. split; [reflexivity|].
    split; [exact Hqx|]. split; [exact Hqy|]. auto.
  - intros textObj u Hempty. unfold onTextBlur.
    apply truthy_empty in Hempty. rewrite Hempty. simpl.
    split; [reflexivity|]. split; [apply removeId_not_In|reflexivity].
  - intros textObj u Hne. unfold onTextBlur.
    destruct (Str.truthy (Str.trim (text textObj))) eqn:E.
    + simpl. auto.
    + apply truthy_empty in E. contradiction.
  - intros textObj u. simpl.
    split; [reflexivity|]. split; [apply removeId_not_In|reflexivity].
Qed.

End TextFacts.

(** C6, counterexample: a click with the text tool followed by typing one
    space gives an object whose text is not empty; its blur removes it. *)
Lemma C6_blur_drops_blank_text :
  let typed :=
    [Open sampleUrl; ClickTool ToolText;
     EditorMouseDown (pointer 600 400) (Some sampleRect) 1700000000000;
     TextChange 0 " "] in
  option_map (fun st => List.map text (textObjects st))
    (run typed (initialUI sampleUrl)) = Some [" "%string]
  /\ option_map textObjects
       (run (typed ++ [TextBlur 0]) (initialUI sampleUrl)) = Some []
  /\ ~ blurKeepsNonEmpty.
Proof.
  split; [vm_compute; reflexivity|]. split; [vm_compute; reflexivity|].
  intros H.
  set (obj := {| id := "t"; text := " "; x := ofZ 50; y := ofZ 50;
                 style := textStyle (initialUI sampleUrl) |}).
  assert (Hin : In obj (textObjects
                          (onTextBlur obj
                             (setTextObjects [obj] (initialUI sampleUrl))))).
  { apply H; [left; reflexivity|discriminate]. }
  exact Hin.
Qed.

(** ** Reset *)

(** C7 (amended): [handleReset] pushes the baseline state (rotation 0,
    filter none, no drawings, the source image, no dimensions) whatever the
    history holds, shows the source image again and puts the crop ratio and
    the crop box back to their initial values; the drag session, the crop
    creation flag, the drawing flag, the start point and the active tool
    are left as they were. *)
Theorem C7_reset_baseline (st : UI) :
  let st' := handleReset st in
  currentState st' = initialState (imageUrl st)
  /\ rotation (currentState st') = 0%Z
  /\ filter (currentState st') = "none"%string
  /\ drawings (currentState st') = []
  /\ imageSrc (currentState st') = Some (imageUrl st)
  /\ history st'
     = (slice0 (history st) (historyIndex st + 1)
        ++ [initialState (imageUrl st)])%list
  /\ historyIndex st' = (jslength (history st') - 1)%Z
  /\ currentImage st' = imageUrl st
  /\ cropRatio st' = Custom
  /\ cropBox st' = CropBox.zero
  /\ dragSession st' = dragSession st
  /\ isCreatingCrop st' = isCreatingCrop st
  /\ isDrawing st' = isDrawing st
  /\ startPoint st' = startPoint st
  /\ activeTool st' = activeTool st.
Proof. repeat split. Qed.

(** C7, counterexample: a pointer-down that starts a custom crop box opens
    a drag session, and a reset issued before the pointer-up leaves that
    session pending. *)
Lemma C7_reset_keeps_drag_session :
  let box := {| CropBox.left := ofZ 50; CropBox.top := ofZ 50;
                CropBox.width := ofZ 0; CropBox.height := ofZ 0 |} in
  option_map dragSession
    (run [Open sampleUrl; ClickTool ToolCrop;
          EditorMouseDown (pointer 600 400) (Some sampleRect) 0; Reset]
       (initialUI sampleUrl))
  = Some (Some {| type := Create; startX := ofZ 600; startY := ofZ 400;
                  startBox := box |})
  /\ ~ resetClearsDrag.
Proof.
  split; [vm_compute; reflexivity|].
  intros H.
  specialize (H (handleCropBoxMouseDown (pointer 0 0) Move
                   (initialUI sampleUrl))).
  discriminate H.
Qed.

(** ** The history along the runs of the component *)

Ltac split_matches :=
  repeat match goal with
         | |- context [match ?x with _ => _ end] => destruct x
         end.

Lemma handleImageLoad_cases (w h : N) (st st' : UI) :
  handleImageLoad w h st = Some st' ->
  (history st' = history st /\ historyIndex st' = historyIndex st)
  \/ (exists e,
        optNum (width (currentState st)) = false
        /\ (0 < jslength (history st))%Z
        /\ jsget (history st) (Z.max (historyIndex st) 0) = Some e
        /\ history st'
           = replaceAt (history st) (Z.to_nat (Z.max (historyIndex st) 0))
               (withSize (Int (Z.of_N w)) (Int (Z.of_N h)) e)
        /\ historyIndex st' = historyIndex st).
Proof.
  unfold handleImageLoad. intros H.
  destruct (optNum (width (currentState st))) eqn:Ew; simpl in H.
  - injection H as <-. left. split; reflexivity.
  - destruct (Z.gtb_spec (jslength (history st)) 0) as [Hlen|Hlen].
    + assert (Eidx : (if (historyIndex st >=? 0)%Z then historyIndex st
                      else 0%Z) = Z.max (historyIndex st) 0).
      { destruct (Z.geb_spec (historyIndex st) 0); lia. }
      rewrite Eidx in H.
      destruct (jsget (history st) (Z.max (historyIndex st) 0)) as [e|]
        eqn:Ee; [|discriminate H].
      injection H as <-. right. exists e. repeat split; auto; lia.
    + injection H as <-. left. split; reflexivity.
Qed.

(** How one handler can change the history and its cursor. *)
Lemma step_cases (ev : Event) (st st' : UI) :
  step ev st = Some st' ->
  (history st' = history st /\ historyIndex st' = historyIndex st)
  \/ (exists s, history st' = history (pushState s st)
                /\ historyIndex st' = historyIndex (pushState s st))
  \/ (exists url, ev = Open url /\ history st' = [initialState url]
                  /\ historyIndex st' = 0%Z)
  \/ (history st' = history st /\ (0 < historyIndex st)%Z
      /\ historyIndex st' = (historyIndex st - 1)%Z)
  \/ (history st' = history st
      /\ (historyIndex st < jslength (history st) - 1)%Z
      /\ historyIndex st' = (historyIndex st + 1)%Z)
  \/ (exists w h e,
        (ev = ImageLoad w h \/ ev = ImageComplete w h)
        /\ optNum (width (currentState st)) = false
        /\ (0 < jslength (history st))%Z
        /\ jsget (history st) (Z.max (historyIndex st) 0) = Some e
        /\ history st'
           = replaceAt (history st) (Z.to_nat (Z.max (historyIndex st) 0))
               (withSize (Int (Z.of_N w)) (Int (Z.of_N h)) e)
        /\ historyIndex st' = historyIndex st).
Proof.
  intros Hstep.
  destruct ev; simpl in Hstep; try (injection Hstep as <-).
  all: try (left; split; reflexivity).
  all: try (right; left; eexists; split; reflexivity).
  all: unfold toggleDraw, onResizeWidthChange, onResizeHeightChange,
         handleEditorMouseDown, handleEditorMouseMove,
         handleCanvasMouseDown, onDrawHexChange, onTextHexChange,
         onTextObject, onTextBlur, onTextKeyDown, onTextChange,
         onTextClick, onTextDelete, handleResizeApply, handleCropApply,
         handleCanvasMouseUp.
  all: unfold onTextBlur.
  all: try (split_matches; solve [ left; split; reflexivity
                                 | right; left; eexists; split; reflexivity ]).
  - right; right; left. exists url. repeat split.
  - destruct (handleImageLoad_cases _ _ _ _ Hstep) as [H|(e & H)];
      [left; exact H|].
    do 5 right. exists naturalW, naturalH, e. split; [left; reflexivity|].
    exact H.
  - unfold imageCompleteEffect in Hstep.
    destruct (truthy (Int (Z.of_N naturalW))
              && negb (optNum (width (currentState st)))).
    + destruct (handleImageLoad_cases _ _ _ _ Hstep) as [H|(e & H)];
        [left; exact H|].
      do 5 right. exists naturalW, naturalH, e.
      split; [right; reflexivity|]. exact H.
    + injection Hstep as <-. left. split; reflexivity.
  - unfold handleUndo in Hstep.
    destruct (Z.gtb_spec (historyIndex st) 0) as [Hpos|Hpos].
    + destruct (jsget (history st) (historyIndex st - 1)) as [p|];
        [|discriminate Hstep].
      injection Hstep as <-. do 3 right. left.
      destruct (showSnapshot_history p
                  (setCurrentState p
                     (setHistoryIndex (historyIndex st - 1) st)))
        as (-> & -> & _).
      repeat split. lia.
    + injection Hstep as <-. left. split; reflexivity.
  - unfold handleRedo in Hstep.
    destruct (Z.ltb_spec (historyIndex st) (jslength (history st) - 1))
      as [Hlt|Hge].
    + destruct (jsget (history st) (historyIndex st + 1)) as [p|];
        [|discriminate Hstep].
      injection Hstep as <-. do 4 right. left.
      destruct (showSnapshot_history p
                  (setCurrentState p
                     (setHistoryIndex (historyIndex st + 1) st)))
        as (-> & -> & _).
      repeat split. exact Hlt.
    + injection Hstep as <-. left. split; reflexivity.
  - unfold handleCanvasMouseMove in Hstep.
    left. revert Hstep. split_matches; intros Hstep;
      try discriminate Hstep; injection Hstep as <-; split; reflexivity.
Qed.

Lemma reachable_cursorOk (st : UI) : reachable st -> cursorOk st.
Proof.
  induction 1 as [url|ev st st' Hr IH Hstep].
  - left. split; reflexivity.
  - destruct (step_cases ev st st' Hstep)
      as [[Hh Hi]|[(s & Hh & Hi)|[(url & _ & Hh & Hi)|[(Hh & Hpos & Hi)
         |[(Hh & Hlt & Hi)|(w & h & e & _ & _ & Hlen & _ & Hh & Hi)]]]]];
      unfold cursorOk in *; rewrite Hh, Hi.
    + exact IH.
    + apply (cursorOk_pushState s st IH).
    + right. unfold jslength. simpl. lia.
    + right. destruct IH as [[E1 E2]|IH]; lia.
    + right. destruct IH as [[E1 E2]|IH]; [rewrite E1 in Hlt|];
        unfold jslength in *; simpl in *; lia.
    + right. destruct IH as [[E1 E2]|IH].
      * rewrite E1 in Hlen. unfold jslength in Hlen. simpl in Hlen. lia.
      * unfold jslength in *. rewrite length_replaceAt. exact IH.
Qed.



Lemma jsget_replaceAt_eq {A} (l : list A) (i : Z) (v : A) :
  (0 <= i < jslength l)%Z ->
  jsget (replaceAt l (Z.to_nat i) v) i = Some v.
Proof.
  intros Hi. unfold jsget, jslength in *.
  destruct (Z.ltb_spec i 0); [lia|].
  apply nth_error_replaceAt_eq. lia.
Qed.

Lemma showSnapshot_drawing s st :
  isDrawing (showSnapshot s st) = isDrawing st
  /\ startPoint (showSnapshot s st) = startPoint st.
Proof.
  unfold showSnapshot.
  destruct (imageSrc s) as [src|]; [destruct (Str.truthy src)|];
    (destruct (width s) as [w|]; [destruct (truthy w)|]);
    (destruct (height s) as [h|]; [destruct (truthy h)|]);
    split; reflexivity.
Qed.

Lemma jsget_lt {A} (l : list A) (i : Z) (a : A) :
  jsget l i = Some a -> (0 <= i < jslength l)%Z.
Proof.
  unfold jsget, jslength. destruct (Z.ltb_spec i 0) as [Hneg|Hpos];
    [discriminate|].
  intros Hget.
  assert (Hn : nth_error l (Z.to_nat i) <> None) by congruence.
  apply nth_error_Some in Hn. lia.
Qed.

(** Outside a drag on the canvas the displayed state is the snapshot under
    the cursor, and during a drag the start point is known. *)
Lemma step_settled (ev : Event) (st st' : UI) :
  settled st -> step ev st = Some st' -> settled st'.
Proof.
  intros [Hsp Hco] Hstep.
  destruct ev; simpl in Hstep; try (injection Hstep as <-).
  all: try (split; [exact Hsp|exact Hco]).
  all: try (split; [exact Hsp|intros _; right; apply pushState_coherent]).
  all: unfold toggleDraw, onResizeWidthChange, onResizeHeightChange,
         handleEditorMouseDown, handleEditorMouseMove,
         onDrawHexChange, onTextHexChange,
         onTextObject, onTextBlur, onTextKeyDown, onTextChange,
         onTextClick, onTextDelete, handleResizeApply, handleCropApply.
  all: unfold onTextBlur.
  all: try (split_matches;
            solve [ split; [exact Hsp|exact Hco]
                  | split; [exact Hsp|intros _; right;
                                      apply pushState_coherent] ]).
  - split; [exact Hsp|]. intros _. right. reflexivity.
  - revert Hstep. unfold handleImageLoad.
    destruct (optNum (width (currentState st))); simpl negb; cbv iota.
    + intros H. injection H as <-. split; [exact Hsp|exact Hco].
    + destruct (Z.gtb_spec (jslength (history st)) 0) as [Hlen|Hlen].
      * destruct (jsget (history st)
                    (if (historyIndex st >=? 0)%Z then historyIndex st
                     else 0%Z)) as [e|] eqn:He; [|discriminate].
        intros H. injection H as <-. split; [exact Hsp|].
        intros Hd. right. destruct (Hco Hd) as [E|Hc].
        { rewrite E in Hlen. unfold jslength in Hlen. simpl in Hlen. lia. }
        unfold coherent in *. simpl.
        pose proof (jsget_lt _ _ _ Hc) as Hi.
        destruct (Z.geb_spec (historyIndex st) 0) as [Hge|Hneg]; [|lia].
        rewrite Hc in He. injection He as <-.
        apply jsget_replaceAt_eq. exact Hi.
      * intros H. injection H as <-. split; [exact Hsp|].
        intros _. left. simpl. destruct (history st); [reflexivity|].
        unfold jslength in Hlen. simpl in Hlen. lia.
  - revert Hstep. unfold imageCompleteEffect, handleImageLoad.
    destruct (truthy (Int (Z.of_N naturalW)));
      destruct (optNum (width (currentState st))); simpl negb; simpl andb;
      cbv iota; try (intros H; injection H as <-;
                     split; [exact Hsp|exact Hco]).
    destruct (Z.gtb_spec (jslength (history st)) 0) as [Hlen|Hlen].
    + destruct (jsget (history st)
                  (if (historyIndex st >=? 0)%Z then historyIndex st
                   else 0%Z)) as [e|] eqn:He; [|discriminate].
      intros H. injection H as <-. split; [exact Hsp|].
      intros Hd. right. destruct (Hco Hd) as [E|Hc].
      { rewrite E in Hlen. unfold jslength in Hlen. simpl in Hlen. lia. }
      unfold coherent in *. simpl.
      pose proof (jsget_lt _ _ _ Hc) as Hi.
      destruct (Z.geb_spec (historyIndex st) 0) as [Hge|Hneg]; [|lia].
      rewrite Hc in He. injection He as <-.
      apply jsget_replaceAt_eq. exact Hi.
    + intros H. injection H as <-. split; [exact Hsp|].
      intros _. left. simpl. destruct (history st); [reflexivity|].
      unfold jslength in Hlen. simpl in Hlen. lia.
  - revert Hstep. unfold handleUndo.
    destruct (historyIndex st >? 0)%Z;
      [|intros H; injection H as <-; split; [exact Hsp|exact Hco]].
    destruct (jsget (history st) (historyIndex st - 1)) as [p|] eqn:Hp;
      [|discriminate].
    intros H. injection H as <-. unfold settled, coherent.
    destruct (showSnapshot_history p
                (setCurrentState p
                   (setHistoryIndex (historyIndex st - 1) st)))
      as (-> & -> & ->).
    destruct (showSnapshot_drawing p
                (setCurrentState p
                   (setHistoryIndex (historyIndex st - 1) st)))
      as (-> & ->).
    split; [exact Hsp|]. intros _. right. exact Hp.
  - revert Hstep. unfold handleRedo.
    destruct (historyIndex st <? jslength (history st) - 1)%Z;
      [|intros H; injection H as <-; split; [exact Hsp|exact Hco]].
    destruct (jsget (history st) (historyIndex st + 1)) as [p|] eqn:Hp;
      [|discriminate].
    intros H. injection H as <-. unfold settled, coherent.
    destruct (showSnapshot_history p
                (setCurrentState p
                   (setHistoryIndex (historyIndex st + 1) st)))
      as (-> & -> & ->).
    destruct (showSnapshot_drawing p
                (setCurrentState p
                   (setHistoryIndex (historyIndex st + 1) st)))
      as (-> & ->).
    split; [exact Hsp|]. intros _. right. exact Hp.
  - unfold handleCanvasMouseDown.
    destruct (activeTool st); try (split; [exact Hsp|exact Hco]).
    destruct canvas; [|split; [exact Hsp|exact Hco]].
    destruct (drawMode st); split; simpl; congruence.
  - revert Hstep. unfold handleCanvasMouseMove.
    destruct (isDrawing st) eqn:Hd;
      [|intros H; injection H as <-; split;
        [congruence|intros _; exact (Hco eq_refl)]].
    split_matches; intros H; try discriminate H; injection H as <-;
      try (split; [intros _; exact (Hsp eq_refl)|congruence]).
    split; simpl; [intros _; exact (Hsp eq_refl)|congruence].
  - unfold handleCanvasMouseUp.
    destruct (isDrawing st) eqn:Hd;
      [|split; [congruence|intros _; exact (Hco eq_refl)]].
    destruct (activeTool st);
      try (split; [intros _; exact (Hsp eq_refl)|congruence]).
    destruct canvas;
      [|split; [intros _; exact (Hsp eq_refl)|congruence]].
    destruct (drawMode st).
    + split; simpl; [congruence|]. intros _. right.
      apply pushState_coherent.
    + destruct (startPoint st) eqn:Es.
      * split; simpl; [congruence|]. intros _. right.
        apply pushState_coherent.
      * exfalso. apply (Hsp eq_refl). reflexivity.
Qed.

Lemma reachable_settled (st : UI) : reachable st -> settled st.
Proof.
  induction 1 as [url|ev st st' _ IH Hstep].
  - split; [discriminate|]. intros _. left. reflexivity.
  - exact (step_settled ev st st' IH Hstep).
Qed.

(** In every state the component can reach outside a drag on the canvas,
    an effective undo followed by a redo shows the same state again. *)
Corollary undo_redo_reachable (st : UI) :
  reachable st -> isDrawing st = false -> (0 < historyIndex st)%Z ->
  exists u r, handleUndo st = Some u /\ handleRedo u = Some r
    /\ currentState r = currentState st
    /\ history r = history st
    /\ historyIndex r = historyIndex st.
Proof.
  intros Hr Hd Hpos.
  destruct (reachable_cursorOk st Hr) as [[_ E]|Hok]; [lia|].
  destruct (reachable_settled st Hr) as [_ Hco].
  destruct (Hco Hd) as [E|Hc].
  { rewrite E in Hok. unfold jslength in Hok. simpl in Hok. lia. }
  apply undo_then_redo; [lia|exact Hc].
Qed.



(** ** Resize controller *)

Lemma run_reachable (evs : list Event) : forall st st',
  reachable st -> run evs st = Some st' -> reachable st'.
Proof.
  induction evs as [|ev evs IH]; intros st st' Hr Hrun; simpl in Hrun.
  - injection Hrun as <-. exact Hr.
  - destruct (step ev st) as [st1|] eqn:E; [|discriminate Hrun].
    apply (IH st1); [|exact Hrun]. exact (reach_step ev st st1 Hr E).
Qed.

(** C9, failing input: with a 2000 by 1333 image loaded and the ratio lock
    on, typing [-5] into the width field sets the height field to [-3], and
    applying the resize pushes a state of width -5 and height -3, which is
    then both the current state and the last entry of the history. *)
Theorem C9_resize_accepts_nonpositive :
  let evs := [Open sampleUrl; ImageLoad 2000 1333; ClickTool ToolResize;
              ResizeWidthChange "-5"; ResizeApply] in
  option_map (fun st => (width (currentState st), height (currentState st)))
    (run evs (initialUI sampleUrl))
  = Some (Some (Int (-5)), Some (Int (-3)))
  /\ option_map (fun st => jsget (history st) (historyIndex st))
       (run evs (initialUI sampleUrl))
     = option_map (fun st => Some (currentState st))
         (run evs (initialUI sampleUrl))
  /\ exists st, run evs (initialUI sampleUrl) = Some st
       /\ reachable st /\ ~ positiveDims (currentState st).
Proof.
  intros evs.
  destruct (run evs (initialUI sampleUrl)) as [st|] eqn:Hrun;
    [|vm_compute in Hrun; discriminate Hrun].
  assert (Hdims : (width (currentState st), height (currentState st))
                  = (Some (Int (-5)), Some (Int (-3)))).
  { vm_compute in Hrun. injection Hrun as <-. reflexivity. }
  split; [simpl; now rewrite Hdims|]. split.
  - vm_compute in Hrun. injection Hrun as <-. reflexivity.
  - exists st. split; [reflexivity|]. split.
    + exact (run_reachable evs _ _ (reach_init sampleUrl) Hrun).
    + intros [Hw _]. injection Hdims as Hw5 _.
      destruct (Hw _ Hw5) as (z & Hz & Hpos).
      injection Hz as <-. lia.
Qed.

(** Below [2^53] an integral double is printed by its decimal digits. *)
Lemma F64_toString_safe (z : Z) :
  (Z.abs z < 2 ^ 53)%Z -> F64.toString (Int z) = toString (Int z).
Proof.
  intros H. unfold F64.toString.
  destruct (Z.ltb_spec (Z.abs z) (2 ^ 53)) as [_|Hge]; [reflexivity|lia].
Qed.

Section RatioLock.

Local Open Scope Q_scope.

(** C10: with the ratio lock on, a width field that parses to the integer
    [n] sets the height field to [Math.round(n / ratio)], where [ratio] is
    the stored [originalRatio] and [/] is the division of doubles: when the
    binary64 quotient is the finite number [q], the field shows the integer
    [z] nearest to [q] (the upper one on a tie), by its decimal digits when
    [z] is below [2^53] in magnitude.  A height field that parses to [n]
    sets the width field likewise from the binary64 product [n * ratio].
    The edited field keeps the typed text.  [handleImageLoad] stores the
    binary64 quotient [naturalWidth / naturalHeight] as the ratio. *)
Theorem C10_ratio_lock (st : UI) (val : string) (n : Z)
  (Hlock : maintainRatio st = true)
  (Hparse : Str.parseInt val = Int n) :
  (forall q : Q,
      F64.value (F64.div (F64.ofZ n) (originalRatio st)) = Fin q ->
      exists z : Z,
        resizeHeight (onResizeWidthChange val st) = F64.toString (Int z)
        /\ resizeWidth (onResizeWidthChange val st) = val
        /\ inject_Z z - (1 # 2) <= q
        /\ q < inject_Z z + (1 # 2)
        /\ ((Z.abs z < 2 ^ 53)%Z ->
            resizeHeight (onResizeWidthChange val st) = toString (Int z)))
  /\ (forall q : Q,
        F64.value (F64.mul (F64.ofZ n) (originalRatio st)) = Fin q ->
        exists z : Z,
          resizeWidth (onResizeHeightChange val st) = F64.toString (Int z)
          /\ resizeHeight (onResizeHeightChange val st) = val
          /\ inject_Z z - (1 # 2) <= q
          /\ q < inject_Z z + (1 # 2)
          /\ ((Z.abs z < 2 ^ 53)%Z ->
              resizeWidth (onResizeHeightChange val st) = toString (Int z)))
  /\ (forall (naturalW naturalH : N) (u u' : UI),
        handleImageLoad naturalW naturalH u = Some u' ->
        originalRatio u'
        = F64.div (F64.ofZ (Z.of_N naturalW)) (F64.ofZ (Z.of_N naturalH))).
Proof.
  split; [|split].
  - intros q Hq. unfold onResizeWidthChange.
    rewrite Hlock, Hparse. simpl negb. cbv iota.
    unfold F64.round, F64.ofInt. rewrite Hq.
    destruct (round_Fin q) as (z & Hz & Hlo & Hhi).
    rewrite Hz. exists z.
    split; [reflexivity|]. split; [reflexivity|].
    split; [exact Hlo|]. split; [exact Hhi|].
    intros Hsafe. simpl resizeHeight. apply F64_toString_safe, Hsafe.
  - intros q Hq. unfold onResizeHeightChange.
    rewrite Hlock, Hparse. simpl negb. cbv iota.
    unfold F64.round, F64.ofInt. rewrite Hq.
    destruct (round_Fin q) as (z & Hz & Hlo & Hhi).
    rewrite Hz. exists z.
    split; [reflexivity|]. split; [reflexivity|].
    split; [exact Hlo|]. split; [exact Hhi|].
    intros Hsafe. simpl resizeWidth. apply F64_toString_safe, Hsafe.
  - intros naturalW naturalH u u'. unfold handleImageLoad.
    split_matches; intros H; try discriminate H; injection H as <-;
      reflexivity.
Qed.

End RatioLock.

(** * The statements at concrete inputs *)

(** C1 at three pushed states: two undos lead back to the first. *)
Lemma C1_witness :
  sampleStates
  = withRotation 90 (initialState sampleUrl)
    :: [withRotation 180 (initialState sampleUrl);
        withRotation 270 (initialState sampleUrl)]
  /\ exists st',
       undoN 2 (pushAll sampleStates (initialUI sampleUrl)) = Some st'
       /\ currentState st' = withRotation 90 (initialState sampleUrl)
       /\ historyIndex st' = 0%Z.
Proof.
  split; [reflexivity|].
  exact (proj1 (proj2 (proj2 (proj2
           (C1_push_then_undo sampleUrl sampleStates))))
           _ _ eq_refl).
Defined.

(** C2 at the tip of a history of three states. *)
Lemma C2_witness :
  let st := pushAll sampleStates (initialUI sampleUrl) in
  let s := initialState sampleUrl in
  (-1 <= historyIndex st < jslength (history st))%Z
  /\ history (pushState s st)
     = (firstn (Z.to_nat (historyIndex st + 1)) (history st) ++ [s])%list
  /\ exists u r, handleUndo st = Some u /\ handleRedo u = Some r
       /\ currentState r = currentState st
       /\ history r = history st
       /\ historyIndex r = historyIndex st.
Proof.
  intros st s.
  assert (Hidx : (-1 <= historyIndex st < jslength (history st))%Z)
    by (vm_compute; split; [intros H; discriminate H|reflexivity]).
  split; [exact Hidx|].
  destruct (C2_push_truncates_redo st s Hidx)
    as (Hpush & _ & _ & _ & _ & Hredo).
  split; [exact Hpush|].
  apply Hredo; vm_compute; reflexivity.
Defined.


(** C4 at the square preset on a 2000 by 1333 image: the crop takes the
    1333 by 1333 rectangle that starts 333.5 pixels from the left edge,
    and the new state is 1333 by 1333. *)
Lemma C4_witness :
  let st := after squareEvents in
  let env := browser 2000 1333 in
  ratioOf Square = Some 1%Q /\ (0 < 2000)%Z /\ (0 < 1333)%Z
  /\ cropSourceRect Square (cropBox st) (ofZ 2000) (ofZ 1333)
     = (Fin (667 # 2), Fin 0, Fin 1333, Fin 1333)
  /\ width (currentState (handleCropApply env st)) = Some (Int 1333)
  /\ height (currentState (handleCropApply env st)) = Some (Int 1333).
Proof.
  intros st env.
  split; [reflexivity|]. split; [reflexivity|]. split; [reflexivity|].
  destruct (C4_preset_crop_rectangle Square 1 (cropBox st) 2000 1333
              eq_refl eq_refl eq_refl)
    as (_ & qx & qy & qw & qh & Hrect & _ & _ & _ & _ & _ & _ & _ & Hfin).
  assert (Hrect' := Hrect). vm_compute in Hrect'.
  injection Hrect' as <- <- <- <-.
  split; [vm_compute; reflexivity|].
  destruct (Hfin env st {| naturalWidth := 2000; naturalHeight := 1333 |}
              "data:1333x1333"%string)
    as (Hw & Hh & _); try (vm_compute; reflexivity).
  rewrite Hw, Hh. split; vm_compute; reflexivity.
Defined.

(** C5 at a freehand drag through (10,10), (20,10) and (20,20): one stroke
    of these three points is committed by one push. *)
Lemma C5_witness :
  let st := after drawEvents in
  let p := fun a b => {| px := Fin a; py := Fin b |} in
  activeTool st = ToolDraw /\ drawMode st = DrawFree
  /\ exists fin,
       run (drag (pointer 10 10) [pointer 20 10; pointer 20 20]
              (pointer 20 20) sampleCanvas) st = Some fin
       /\ drawings (currentState fin)
          = [FreeStroke "#00a9ff" (Int 12) [p 10 10; p 20 10; p 20 20]%Q]
       /\ history fin = (history st ++ [currentState fin])%list.
Proof.
  intros st p.
  assert (Htool : activeTool st = ToolDraw) by (vm_compute; reflexivity).
  assert (Hmode : drawMode st = DrawFree) by (vm_compute; reflexivity).
  split; [exact Htool|]. split; [exact Hmode|].
  destruct (proj1 (C5_draw_gestures st sampleCanvas (pointer 10 10)
                     (pointer 20 20) [pointer 20 10; pointer 20 20] Htool)
              Hmode)
    as (mid & fin & _ & Hdr & _ & _ & Hrun & Hcur & Hhist & _).
  exists fin. split; [exact Hrun|]. rewrite Hhist, Hcur. split.
  - rewrite Hdr. vm_compute. reflexivity.
  - assert (Hs : slice0 (history st) (historyIndex st + 1) = history st)
      by (vm_compute; reflexivity).
    now rewrite Hs.
Defined.

(** C6 at a click in the middle of the sample container. *)
Lemma C6_witness :
  let st := after [Open sampleUrl; ClickTool ToolText] in
  let e := {| clientX := Fin 600; clientY := Fin 400 |} in
  let rect := {| Rect.left := Fin 0; Rect.top := Fin 0;
                 Rect.width := Fin 1200; Rect.height := Fin 800 |} in
  let st' := handleEditorMouseDown e (Some rect) 1700000000000 st in
  activeTool st = ToolText /\ ~ (1200 == 0)%Q /\ ~ (800 == 0)%Q
  /\ exists obj qx qy,
       textObjects st' = (textObjects st ++ [obj])%list
       /\ id obj = ("text-" ++ toString (Int 1700000000000))%string
       /\ text obj = ""%string
       /\ x obj = Fin qx /\ y obj = Fin qy
       /\ clamped ((600 - 0) / 1200 * 100)%Q qx
       /\ clamped ((400 - 0) / 800 * 100)%Q qy
       /\ style obj = textStyle st
       /\ editingTextId st' = Some (id obj).
Proof.
  intros st e rect st'.
  assert (Htool : activeTool st = ToolText) by (vm_compute; reflexivity).
  assert (Hw : ~ (1200 == 0)%Q) by (intros H; discriminate H).
  assert (Hh : ~ (800 == 0)%Q) by (intros H; discriminate H).
  split; [exact Htool|]. split; [exact Hw|]. split; [exact Hh|].
  exact (proj1 (C6_text_lifecycle st 1700000000000 600 400 0 0 1200 800
                  Htool Hw Hh)).
Defined.


(** C10 at the initial ratio 2000/1333 and the width 1000: the binary64
    quotient is 666.5 and the height field shows 667. *)
Lemma C10_witness :
  let st := initialUI sampleUrl in
  maintainRatio st = true /\ Str.parseInt "1000" = Int 1000
  /\ F64.value (F64.div (F64.ofZ 1000) (originalRatio st)) = Fin (1333 # 2)
  /\ exists z : Z,
       resizeHeight (onResizeWidthChange "1000" st) = F64.toString (Int z)
       /\ resizeWidth (onResizeWidthChange "1000" st) = "1000"%string
       /\ (inject_Z z - (1 # 2) <= 1333 # 2)%Q
       /\ (1333 # 2 < inject_Z z + (1 # 2))%Q
       /\ ((Z.abs z < 2 ^ 53)%Z ->
           resizeHeight (onResizeWidthChange "1000" st) = toString (Int z)).
Proof.
  intros st.
  assert (Hq : F64.value (F64.div (F64.ofZ 1000) (originalRatio st))
               = Fin (1333 # 2)) by (vm_compute; reflexivity).
  split; [reflexivity|]. split; [reflexivity|]. split; [exact Hq|].
  exact (proj1 (C10_ratio_lock st "1000" 1000 eq_refl eq_refl)
           (1333 # 2)%Q Hq).
Defined.

(** ** Worked examples *)

Example parseInt_1000 : Str.parseInt "1000" = Int 1000.
Proof. reflexivity. Qed.

Example parseInt_neg : Str.parseInt " -5px" = Int (-5).
Proof. reflexivity. Qed.

Example parseInt_hex : Str.parseInt "0x1f" = Int 31.
Proof. reflexivity. Qed.

Example parseInt_nan : Str.parseInt "abc" = INaN.
Proof. reflexivity. Qed.

Example toString_neg : toString (Int (-3)) = "-3"%string.
Proof. reflexivity. Qed.

Example trim_ws : Str.trim "  a b  " = "a b"%string.
Proof. reflexivity. Qed.

(** The stored ratios are doubles: the initial 2000/1333 is
    6757088713234053 * 2^-52 (1.5003750937734435), and 1333/1333 is 1. *)
Example ratio_doubles :
  originalRatio (initialUI sampleUrl)
  = SpecFloat.S754_finite false 6757088713234053 (-52)
  /\ F64.div (F64.ofZ 1333) (F64.ofZ 1333) = F64.ofZ 1
  /\ F64.value (F64.ofZ 1) = Fin 1.
Proof. vm_compute. repeat split. Qed.

(** The quotient is rounded to a double before [Math.round]: with the
    ratio 2000/1333 the width 3000 gives the quotient 1999.4999999999998
    and the height 1999, the width 5000 gives 3332; with a 23 by 40 image
    the height 100 gives the product 57.49999999999999 and the width 57. *)
Example ratio_lock_binary64 :
  resizeHeight (onResizeWidthChange "3000" (initialUI sampleUrl))
  = "1999"%string
  /\ resizeHeight (onResizeWidthChange "5000" (initialUI sampleUrl))
     = "3332"%string
  /\ option_map (fun st => resizeWidth (onResizeHeightChange "100" st))
       (run [Open sampleUrl; ImageLoad 23 40] (initialUI sampleUrl))
     = Some "57"%string
  /\ F64.value (F64.div (F64.ofZ 3000) (originalRatio (initialUI sampleUrl)))
     = Fin (8793893998952447 # 4398046511104).
Proof. vm_compute. repeat split. Qed.

(** Past the safe integers the field shows the shortest digits of the
    double, and a division by a zero ratio shows [Infinity]. *)
Example ratio_lock_large :
  resizeHeight
    (onResizeWidthChange "100000000000000000000" (initialUI sampleUrl))
  = "66649999999999990000"%string
  /\ resizeHeight
       (onResizeWidthChange "3000000000000000000000" (initialUI sampleUrl))
     = "1.9994999999999999e+21"%string
  /\ option_map (fun st => resizeHeight (onResizeWidthChange "7" st))
       (run [Open sampleUrl; ImageLoad 0 40] (initialUI sampleUrl))
     = Some "Infinity"%string
  /\ option_map (fun st => resizeHeight (onResizeWidthChange "7" st))
       (run [Open sampleUrl; ImageLoad 0 0] (initialUI sampleUrl))
     = Some "NaN"%string.
Proof. vm_compute. repeat split. Qed.

(** Ratio 2000/1333 and width 1000 give height 667. *)
Example ratio_lock_667 :
  resizeHeight (onResizeWidthChange "1000" (initialUI sampleUrl))
  = "667"%string
  /\ resizeWidth
       (onResizeHeightChange "1333"
          (after [Open sampleUrl; ImageLoad 2000 1333]))
     = "2000"%string.
Proof. split; vm_compute; reflexivity. Qed.

(** The square preset on 2000 by 1333 ends in a 1333 by 1333 state whose
    image is the crop, with the tool closed and the ratio reset to 1. *)
Example crop_square_2000x1333 :
  let st := handleCropApply (browser 2000 1333) (after squareEvents) in
  (width (currentState st), height (currentState st))
  = (Some (Int 1333), Some (Int 1333))
  /\ currentImage st = "data:1333x1333"%string
  /\ mode (currentState st) = Some ModeCrop
  /\ activeTool st = ToolNone
  /\ originalRatio st = F64.ofZ 1
  /\ jslength (history st) = 2%Z.
Proof. vm_compute. repeat split. Qed.

(** Four rotations bring the rotation back to 0. *)
Example rotate_four_times :
  option_map (fun st => rotation (currentState st))
    (run [Open sampleUrl; ClickRotate; ClickRotate; ClickRotate;
          ClickRotate] (initialUI sampleUrl))
  = Some 0%Z.
Proof. vm_compute. reflexivity. Qed.

(** A line drag commits one line stroke. *)
Example line_drag :
  option_map (fun st => (drawings (currentState st),
                         jslength (history st)))
    (run (drawEvents ++ [SelectDrawMode DrawLine]
          ++ drag (pointer 10 10) [pointer 20 10] (pointer 30 40)
               sampleCanvas) (initialUI sampleUrl))
  = Some ([LineStroke "#00a9ff" (Int 12)
             {| px := Fin 10; py := Fin 10 |}
             {| px := Fin 30; py := Fin 40 |}], 2%Z).
Proof. vm_compute. reflexivity. Qed.


(** * Further properties of the handlers *)

Lemma Forall_slice0 {A} (P : A -> Prop) (l : list A) (e : Z) :
  Forall P l -> Forall P (slice0 l e).
Proof.
  intros H. unfold slice0. rewrite <- (firstn_skipn (Z.to_nat
    (if (e <? 0)%Z then Z.max (jslength l + e) 0 else Z.min e (jslength l)))
    l) in H.
  apply Forall_app in H. exact (proj1 H).
Qed.

Lemma Forall_replaceAt {A} (P : A -> Prop) (l : list A) (i : nat) (v : A) :
  Forall P l -> P v -> Forall P (replaceAt l i v).
Proof.
  intros Hl Hv. revert i. induction Hl as [|a l Ha Hl IH]; intros [|i];
    simpl; constructor; auto.
Qed.

Lemma Forall_jsget {A} (P : A -> Prop) (l : list A) (i : Z) (a : A) :
  Forall P l -> jsget l i = Some a -> P a.
Proof.
  intros Hl Hget. unfold jsget in Hget.
  destruct (i <? 0)%Z; [discriminate|].
  apply nth_error_In in Hget. rewrite Forall_forall in Hl. auto.
Qed.

(** Every snapshot the component ever shows or stores is built from a
    baseline by the object spreads of the handlers. *)
Lemma snapshots_ind (P : EditorState -> Prop) :
  (forall url, P (initialState url)) ->
  (forall s, P s -> P (withRotation (nextRotation (rotation s)) s)) ->
  (forall s, P s -> P (withFilter (nextFilter (filter s)) s)) ->
  (forall s w h, P s -> P (withSize w h s)) ->
  (forall s m, P s -> P (withMode m s)) ->
  (forall s u, P s -> P (withImageSrc u s)) ->
  (forall s d, P s -> P (withDrawings d s)) ->
  forall st, reachable st -> P (currentState st) /\ Forall P (history st).
Proof.
  intros Hinit Hrot Hfilt Hsize Hmode Himg Hdraw st Hr.
  induction Hr as [url|ev st st' _ [HPc HPh] Hstep].
  - split; [apply Hinit|constructor].
  - assert (Hpush : forall s st1, P s -> currentState st1 = s ->
              history st1 = history (pushState s st) ->
              P (currentState st1) /\ Forall P (history st1)).
    { intros s st1 Hs -> ->. split; [exact Hs|]. rewrite pushState_history.
      apply Forall_app. split; [apply Forall_slice0; exact HPh|].
      constructor; [exact Hs|constructor]. }
    assert (Hload : forall w h u, handleImageLoad w h st = Some u ->
              P (currentState u) /\ Forall P (history u)).
    { intros w h u. unfold handleImageLoad.
      destruct (optNum (width (currentState st))); simpl negb; cbv iota;
        [intros H; injection H as <-; split; [exact HPc|exact HPh]|].
      destruct (jslength (history st) >? 0)%Z.
      - destruct (jsget (history st)
                    (if (historyIndex st >=? 0)%Z then historyIndex st
                     else 0%Z)) as [e|] eqn:He; [|discriminate].
        intros H. injection H as <-. split; [apply Hsize; exact HPc|].
        simpl. apply Forall_replaceAt; [exact HPh|].
        apply Hsize. exact (Forall_jsget P _ _ _ HPh He).
      - intros H. injection H as <-.
        split; [apply Hsize; exact HPc|exact HPh]. }
    destruct ev; simpl in Hstep; try (injection Hstep as <-).
    all: try (split; [exact HPc|exact HPh]).
    all: unfold toggleDraw, onResizeWidthChange, onResizeHeightChange,
           handleEditorMouseDown, handleEditorMouseMove,
           handleCanvasMouseDown, onDrawHexChange, onTextHexChange,
           onTextObject, onTextBlur, onTextKeyDown, onTextChange,
           onTextClick, onTextDelete, handleResizeApply, handleCropApply,
           handleCanvasMouseUp, handleReset, handleFilter, handleRotate.
    all: unfold onTextBlur.
    all: try (split_matches;
              solve [ split; [exact HPc|exact HPh]
                    | eapply Hpush; [|reflexivity|reflexivity]; simpl; auto
                    | split; [apply Hdraw; exact HPc|exact HPh] ]).
    + split; [apply Hinit|]. simpl. constructor; [apply Hinit|constructor].
    + exact (Hload _ _ _ Hstep).
    + unfold imageCompleteEffect in Hstep.
      destruct (truthy (Int (Z.of_N naturalW))
                && negb (optNum (width (currentState st))));
        [exact (Hload _ _ _ Hstep)|].
      injection Hstep as <-. split; [exact HPc|exact HPh].
    + revert Hstep. unfold handleUndo.
      destruct (historyIndex st >? 0)%Z;
        [|intros H; injection H as <-; split; [exact HPc|exact HPh]].
      destruct (jsget (history st) (historyIndex st - 1)) as [p|] eqn:Hp;
        [|discriminate].
      intros H. injection H as <-.
      destruct (showSnapshot_history p
                  (setCurrentState p
                     (setHistoryIndex (historyIndex st - 1) st)))
        as (-> & _ & ->).
      split; [exact (Forall_jsget P _ _ _ HPh Hp)|exact HPh].
    + revert Hstep. unfold handleRedo.
      destruct (historyIndex st <? jslength (history st) - 1)%Z;
        [|intros H; injection H as <-; split; [exact HPc|exact HPh]].
      destruct (jsget (history st) (historyIndex st + 1)) as [p|] eqn:Hp;
        [|discriminate].
      intros H. injection H as <-.
      destruct (showSnapshot_history p
                  (setCurrentState p
                     (setHistoryIndex (historyIndex st + 1) st)))
        as (-> & _ & ->).
      split; [exact (Forall_jsget P _ _ _ HPh Hp)|exact HPh].
    + eapply Hpush; [|reflexivity|reflexivity]. apply Hfilt. exact HPc.
    + eapply Hpush; [|reflexivity|reflexivity]. apply Hrot. exact HPc.
    + revert Hstep. unfold handleCanvasMouseMove.
      split_matches; intros H; try discriminate H; injection H as <-;
        try (split; [exact HPc|exact HPh]).
      split; [apply Hdraw; exact HPc|exact HPh].
Qed.

Lemma after_reachable (evs : list Event) (st : UI) :
  run evs (initialUI sampleUrl) = Some st -> reachable (after evs).
Proof.
  intros H. unfold after. rewrite H.
  exact (run_reachable evs _ _ (reach_init sampleUrl) H).
Qed.



Lemma rotation_handleRotate (st : UI) :
  rotation (currentState (handleRotate st))
  = nextRotation (rotation (currentState st)).
Proof. reflexivity. Qed.

Lemma filter_handleFilter (st : UI) :
  filter (currentState (handleFilter st))
  = nextFilter (filter (currentState st)).
Proof. reflexivity. Qed.

(** X2: along every run the rotation of the displayed state and of every
    stored snapshot is 0, 90, 180 or 270; one click on the rotate button
    adds a quarter turn modulo 360 and leaves the other fields of the
    snapshot alone, and four clicks give the rotation back. *)
Theorem X2_rotation_quarter_turns (st : UI) (Hreach : reachable st) :
  rotationOk (currentState st)
  /\ Forall rotationOk (history st)
  /\ currentState (handleRotate st)
     = withRotation ((rotation (currentState st) + 90) mod 360)
         (currentState st)
  /\ rotation (currentState
       (handleRotate (handleRotate (handleRotate (handleRotate st)))))
     = rotation (currentState st).
Proof.
  assert (Hinv : rotationOk (currentState st)
                 /\ Forall rotationOk (history st)).
  { apply snapshots_ind; try exact Hreach; unfold rotationOk; simpl; auto.
    intros s [H|[H|[H|[H|[]]]]]; rewrite <- H; vm_compute; auto. }
  destruct Hinv as [Hc Hh]. split; [exact Hc|]. split; [exact Hh|].
  unfold rotationOk in Hc. simpl in Hc.
  split.
  - unfold handleRotate. rewrite pushState_current. f_equal.
    destruct Hc as [H|[H|[H|[H|[]]]]]; rewrite <- H; reflexivity.
  - rewrite !rotation_handleRotate.
    destruct Hc as [H|[H|[H|[H|[]]]]]; rewrite <- H; reflexivity.
Qed.

Lemma nextFilter_unknown (f : string) :
  ~ In f filters -> nextFilter f = "none"%string.
Proof.
  intros Hn. unfold nextFilter.
  assert (E : indexOf filters f = (-1)%Z).
  { cbv beta iota delta [indexOf filters]. unfold filters in Hn.
    repeat match goal with
           | |- context [String.eqb ?a f] =>
               destruct (String.eqb_spec a f) as [E|_];
               [exfalso; apply Hn; rewrite <- E; simpl; auto 10|]
           end.
    reflexivity. }
  rewrite E. reflexivity.
Qed.

(** X3: along every run the filter of the displayed state and of every
    stored snapshot is one of the five entries of the filter table; a
    click on the filter button moves to the next entry, wrapping from the
    last to the first, so that five clicks give the filter back; a filter
    outside the table would be followed by [none]. *)
Theorem X3_filter_cycle (st : UI) (Hreach : reachable st) :
  filterOk (currentState st)
  /\ Forall filterOk (history st)
  /\ currentState (handleFilter st)
     = withFilter (nextFilter (filter (currentState st))) (currentState st)
  /\ List.map nextFilter filters
     = ["grayscale(100%)"; "sepia(100%)"; "blur(5px)"; "brightness(150%)";
        "none"]%string
  /\ filter (currentState
       (handleFilter (handleFilter (handleFilter (handleFilter
          (handleFilter st))))))
     = filter (currentState st)
  /\ (forall f, ~ In f filters -> nextFilter f = "none"%string).
Proof.
  assert (Hinv : filterOk (currentState st) /\ Forall filterOk (history st)).
  { apply snapshots_ind; try exact Hreach; unfold filterOk; simpl; auto.
    intros s [H|[H|[H|[H|[H|[]]]]]]; rewrite <- H; vm_compute; auto 10. }
  destruct Hinv as [Hc Hh]. split; [exact Hc|]. split; [exact Hh|].
  split; [reflexivity|]. split; [vm_compute; reflexivity|].
  split; [|exact nextFilter_unknown].
  unfold filterOk in Hc. simpl in Hc.
  rewrite !filter_handleFilter.
  destruct Hc as [H|[H|[H|[H|[H|[]]]]]]; rewrite <- H;
    vm_compute; reflexivity.
Qed.





(** X7: no handler other than undo, redo, reset and the open effect ever
    removes, reorders or recolours a drawing of the displayed state: it
    either appends strokes after the existing ones or, for the pointer-move
    of a freehand drag, appends one point to the last stroke. *)
Theorem X7_drawings_only_grow (ev : Event) (st st' : UI)
  (Hstep : step ev st = Some st') (Hedit : rewinds ev = false) :
  (exists added,
     drawings (currentState st')
     = (drawings (currentState st) ++ added)%list)
  \/ (exists base col sz pts p,
        drawings (currentState st) = (base ++ [FreeStroke col sz pts])%list
        /\ drawings (currentState st')
           = (base ++ [FreeStroke col sz (pts ++ [p])])%list).
Proof.
  assert (Hload : forall w h u, handleImageLoad w h st = Some u ->
            drawings (currentState u) = drawings (currentState st)).
  { intros w h u. unfold handleImageLoad.
    split_matches; intros H; try discriminate H; injection H as <-;
      reflexivity. }
  assert (Hsame : drawings (currentState st') = drawings (currentState st)
                  -> exists added,
                       drawings (currentState st')
                       = (drawings (currentState st) ++ added)%list).
  { intros ->. exists []. now rewrite app_nil_r. }
  destruct ev; try discriminate Hedit; simpl in Hstep;
    try (injection Hstep as <-).
  all: try (left; apply Hsame; reflexivity).
  all: unfold toggleDraw, onResizeWidthChange, onResizeHeightChange,
         handleEditorMouseDown, handleEditorMouseMove,
         handleCanvasMouseDown, onDrawHexChange, onTextHexChange,
         onTextObject, onTextBlur, onTextKeyDown, onTextChange,
         onTextClick, onTextDelete, handleResizeApply, handleCropApply,
         handleCanvasMouseUp.
  all: unfold onTextBlur.
  all: try (split_matches;
            solve [ left; exists []; simpl; now rewrite app_nil_r
                  | left; eexists [_]; reflexivity ]).
  - left. apply Hsame. exact (Hload _ _ _ Hstep).
  - left. apply Hsame. unfold imageCompleteEffect in Hstep.
    destruct (truthy (Int (Z.of_N naturalW))
              && negb (optNum (width (currentState st))));
      [exact (Hload _ _ _ Hstep)|].
    injection Hstep as <-. reflexivity.
  - unfold handleCanvasMouseMove in Hstep.
    destruct (isDrawing st);
      [|injection Hstep as <-; left; apply Hsame; reflexivity].
    destruct (activeTool st);
      try (injection Hstep as <-; left; apply Hsame; reflexivity).
    destruct canvas as [c|];
      [|injection Hstep as <-; left; apply Hsame; reflexivity].
    destruct (drawMode st);
      [|injection Hstep as <-; left; apply Hsame; reflexivity].
    destruct (appendPoint (drawings (currentState st)) (canvasPoint e c))
      as [nd|] eqn:E; [|discriminate Hstep].
    injection Hstep as <-. right. simpl.
    clear - E. revert nd E.
    induction (drawings (currentState st)) as [|d ds IH]; intros nd E;
      [discriminate E|].
    simpl in E. destruct ds as [|d' ds'].
    + destruct d as [col sz pts|]; [|discriminate E].
      injection E as <-. exists [], col, sz, pts, (canvasPoint e c).
      split; reflexivity.
    + destruct (appendPoint (d' :: ds') (canvasPoint e c)) as [r|] eqn:Er;
        [|destruct d; discriminate E].
      assert (E' : nd = d :: r) by (destruct d; congruence).
      destruct (IH r eq_refl) as (base & col & sz & pts & p & H1 & H2).
      exists (d :: base), col, sz, pts, p. rewrite E', H1, H2.
      split; reflexivity.
Qed.

(** ** Colour fields *)




(** ** Crop controller, continued *)

Section CropFacts.

Local Open Scope Q_scope.



Lemma create_axis (s d : Q) :
  0 <= s <= 100 ->
  exists l w : Q,
    (if (Fin d >=? ofZ 0)%num
     then (Fin s, min (ofZ 100 - Fin s)%num (Fin d))
     else (max (ofZ 0) (Fin s + Fin d)%num,
           (Fin s - max (ofZ 0) (Fin s + Fin d))%num))
    = (Fin l, Fin w)
    /\ 0 <= l /\ 0 <= w /\ l + w <= 100
    /\ (0 <= d -> l == s) /\ (d < 0 -> l + w == s).
Proof.
  intros Hs. unfold ge, le, ofZ.
  change (inject_Z 0) with 0. change (inject_Z 100) with 100.
  destruct (Qle_bool 0 d) eqn:E.
  - apply Qle_bool_iff in E. rewrite sub_Fin. unfold min, lt.
    set (r := Qred (100 + Qred (- s))).
    assert (Er : r == 100 - s)
      by (unfold r; rewrite !Qred_correct; reflexivity).
    destruct (Qltb d r) eqn:E1.
    + apply Qltb_lt in E1. exists s, d. split; [reflexivity|].
      repeat split; lra.
    + apply Qltb_ge in E1. exists s, r. split; [reflexivity|].
      repeat split; lra.
  - assert (Hd : d < 0).
    { apply Qnot_le_lt. intros H. apply Qle_bool_iff in H. congruence. }
    rewrite add_Fin. unfold max, lt.
    set (a := Qred (s + d)).
    assert (Ea : a == s + d) by (unfold a; apply Qred_correct).
    destruct (Qltb 0 a) eqn:E1.
    + apply Qltb_lt in E1. rewrite sub_Fin.
      set (r := Qred (s + Qred (- a))).
      assert (Er : r == s - a)
        by (unfold r; rewrite !Qred_correct; reflexivity).
      exists a, r. split; [reflexivity|].
      repeat split; lra.
    + apply Qltb_ge in E1. rewrite sub_Fin.
      set (r := Qred (s + Qred (- 0))).
      assert (Er : r == s)
        by (unfold r; rewrite !Qred_correct; lra).
      exists 0, r. split; [reflexivity|].
      repeat split; lra.
Qed.

(** X10: the box drawn by a drag in the custom crop mode stays inside the
    image and keeps the pointer-down position as one of its corners.  For
    a pointer-down and a pointer-move at finite positions over containers
    of non-zero size, the box after the move has finite coordinates with
    [0 <= left], [0 <= width], [left + width <= 100] (and likewise
    vertically); its left edge is the start position when the pointer has
    moved right of the pointer-down and its right edge is when it has
    moved left.  The drag session is not changed by the move, so the box
    always derives from the pointer-down and the last position. *)
Theorem X10_create_drag_inside (st : UI) (now : Z)
  (x0 y0 x1 y1 rl rt rw rh rl' rt' rw' rh' : Q)
  (Htool : activeTool st = ToolCrop) (Hcustom : cropRatio st = Custom)
  (Hrw : ~ rw == 0) (Hrh : ~ rh == 0)
  (Hrw' : ~ rw' == 0) (Hrh' : ~ rh' == 0) :
  let down :=
    handleEditorMouseDown {| clientX := Fin x0; clientY := Fin y0 |}
      (Some {| Rect.left := Fin rl; Rect.top := Fin rt;
               Rect.width := Fin rw; Rect.height := Fin rh |}) now st in
  let moved :=
    handleEditorMouseMove {| clientX := Fin x1; clientY := Fin y1 |}
      (Some {| Rect.left := Fin rl'; Rect.top := Fin rt';
               Rect.width := Fin rw'; Rect.height := Fin rh' |}) down in
  exists sl stp l t w h : Q,
    cropBox down
    = {| CropBox.left := Fin sl; CropBox.top := Fin stp;
         CropBox.width := Fin 0; CropBox.height := Fin 0 |}
    /\ clamped ((x0 - rl) / rw * 100) sl
    /\ clamped ((y0 - rt) / rh * 100) stp
    /\ cropBox moved
       = {| CropBox.left := Fin l; CropBox.top := Fin t;
            CropBox.width := Fin w; CropBox.height := Fin h |}
    /\ insideImage l t w h
    /\ (0 <= (x1 - x0) / rw' -> l == sl)
    /\ ((x1 - x0) / rw' < 0 -> l + w == sl)
    /\ (0 <= (y1 - y0) / rh' -> t == stp)
    /\ ((y1 - y0) / rh' < 0 -> t + h == stp)
    /\ dragSession moved = dragSession down
    /\ isCreatingCrop moved = true.
Proof.
  intros down moved.
  destruct (percent_Fin x0 rl rw Hrw) as (sl & Esl & Csl).
  destruct (percent_Fin y0 rt rh Hrh) as (stp & Estp & Cstp).
  assert (Hdown : down
    = setDragSession
        (Some {| type := Create; startX := Fin x0; startY := Fin y0;
                 startBox := {| CropBox.left := Fin sl;
                                CropBox.top := Fin stp;
                                CropBox.width := ofZ 0;
                                CropBox.height := ofZ 0 |} |})
        (setCropBox {| CropBox.left := Fin sl; CropBox.top := Fin stp;
                       CropBox.width := ofZ 0; CropBox.height := ofZ 0 |}
           (setIsCreatingCrop true st))).
  { unfold down, handleEditorMouseDown. rewrite Htool, Hcustom.
    cbv beta iota zeta. simpl clientX. simpl clientY. simpl Rect.left.
    simpl Rect.top. simpl Rect.width. simpl Rect.height.
    rewrite Esl, Estp. reflexivity. }
  set (dx := Qred (Qred (Qred (x1 + Qred (- x0)) / rw') * 100)).
  set (dy := Qred (Qred (Qred (y1 + Qred (- y0)) / rh') * 100)).
  assert (Edx : dx == (x1 - x0) / rw' * 100)
    by (unfold dx; rewrite !Qred_correct; reflexivity).
  assert (Edy : dy == (y1 - y0) / rh' * 100)
    by (unfold dy; rewrite !Qred_correct; reflexivity).
  assert (Hsl : 0 <= sl <= 100) by (destruct Csl as (H & _); exact H).
  assert (Hstp : 0 <= stp <= 100) by (destruct Cstp as (H & _); exact H).
  destruct (create_axis sl dx Hsl) as (l & w & Ex & Hl & Hw & Hlw & Hxr & Hxl).
  destruct (create_axis stp dy Hstp) as (t & h & Ey & Ht & Hh & Hth & Hyd & Hyu).
  assert (Hmoved : cropBox moved
    = {| CropBox.left := Fin l; CropBox.top := Fin t;
         CropBox.width := Fin w; CropBox.height := Fin h |}).
  { unfold moved. rewrite Hdown. unfold handleEditorMouseMove.
    simpl dragSession. cbv beta iota zeta.
    simpl clientX. simpl clientY. simpl Rect.width. simpl Rect.height.
    simpl startX. simpl startY.
    rewrite !sub_Fin. rewrite (div_Fin _ rw') by exact Hrw'.
    rewrite (div_Fin _ rh') by exact Hrh'.
    change (ofZ 100) with (Fin 100). rewrite !mul_Fin.
    fold dx. fold dy. simpl cropBox. unfold dragBox.
    simpl type. simpl startBox. cbv beta iota zeta.
    simpl CropBox.left. simpl CropBox.top.
    change (Fin 100) with (ofZ 100).
    rewrite Ex, Ey. reflexivity. }
  exists sl, stp, l, t, w, h.
  split; [rewrite Hdown; reflexivity|].
  split; [exact Csl|]. split; [exact Cstp|]. split; [exact Hmoved|].
  split; [unfold insideImage; tauto|].
  assert (Sx : 0 <= (x1 - x0) / rw' <-> 0 <= dx).
  { rewrite Edx. split; intros H.
    - apply Qmult_le_0_compat; [exact H|discriminate].
    - apply (Qmult_le_r _ _ 100); [reflexivity|]. lra. }
  assert (Sy : 0 <= (y1 - y0) / rh' <-> 0 <= dy).
  { rewrite Edy. split; intros H.
    - apply Qmult_le_0_compat; [exact H|discriminate].
    - apply (Qmult_le_r _ _ 100); [reflexivity|]. lra. }
  split; [intros H; apply Hxr, Sx, H|].
  split.
  { intros H. apply Hxl. apply Qnot_le_lt. intros H'.
    apply Sx in H'. lra. }
  split; [intros H; apply Hyd, Sy, H|].
  split.
  { intros H. apply Hyu. apply Qnot_le_lt. intros H'.
    apply Sy in H'. lra. }
  split; unfold moved; rewrite Hdown; reflexivity.
Qed.

End CropFacts.

(** ** Decimal strings and the resize fields *)

Lemma digits_acc (l : Decimal.uint) : forall acc : positive,
  Str.digits 10 (NilEmpty.string_of_uint l) (Z.pos acc) true
  = Some (Z.pos (Pos.of_uint_acc l acc)).
Proof.
  induction l; intros acc; cbn [NilEmpty.string_of_uint Pos.of_uint_acc];
    [reflexivity|..];
    cbn [Str.digits];
    match goal with
    | |- context [Str.digit 10 ?c] =>
        let v := eval vm_compute in (Str.digit 10 c) in
        change (Str.digit 10 c) with v
    end; cbv iota; rewrite <- IHl; f_equal; lia.
Qed.

(** Reading the digits of a decimal numeral gives its value. *)
Lemma digits_uint (l : Decimal.uint) :
  l <> Decimal.Nil ->
  Str.digits 10 (NilEmpty.string_of_uint l) 0 false
  = Some (Z.of_N (Pos.of_uint l)).
Proof.
  assert (Hz : forall l, Str.digits 10 (NilEmpty.string_of_uint l) 0 true
                         = Some (Z.of_N (Pos.of_uint l))).
  { clear l. induction l; cbn [NilEmpty.string_of_uint Pos.of_uint];
      [reflexivity|..];
      cbn [Str.digits];
      match goal with
      | |- context [Str.digit 10 ?c] =>
          let v := eval vm_compute in (Str.digit 10 c) in
          change (Str.digit 10 c) with v
      end; cbv iota; try exact IHl; apply (digits_acc l). }
  destruct l; intros Hl; [congruence|..];
    cbn [NilEmpty.string_of_uint Pos.of_uint];
    cbn [Str.digits];
    match goal with
    | |- context [Str.digit 10 ?c] =>
        let v := eval vm_compute in (Str.digit 10 c) in
        change (Str.digit 10 c) with v
    end; cbv iota; try apply Hz; apply (digits_acc l).
Qed.

Lemma to_uint_nonnil (p : positive) : Pos.to_uint p <> Decimal.Nil.
Proof.
  intros H. pose proof (DecimalPos.Unsigned.of_to p) as E.
  rewrite H in E. discriminate E.
Qed.

Ltac eval_ws :=
  repeat match goal with
         | |- context [Str.isWhiteSpace ?c] =>
             let v := eval vm_compute in (Str.isWhiteSpace c) in
             change (Str.isWhiteSpace c) with v
         end.

(** [parseInt] reads a numeral of decimal digits, with or without a minus
    sign, as its value. *)
Lemma parseInt_uint (l : Decimal.uint) :
  l <> Decimal.Nil ->
  Str.parseInt (NilEmpty.string_of_uint l) = Int (Z.of_N (Pos.of_uint l))
  /\ Str.parseInt (String "-" (NilEmpty.string_of_uint l))
     = Int (- Z.of_N (Pos.of_uint l)).
Proof.
  intros Hl. pose proof (digits_uint l Hl) as Hd.
  destruct l as [|l|l|l|l|l|l|l|l|l|l]; [congruence|..].
  1: destruct l as [|l|l|l|l|l|l|l|l|l|l].
  all: unfold Str.parseInt;
    cbn [NilEmpty.string_of_uint Str.trimStart] in *; eval_ws;
    cbv beta iota zeta; rewrite Hd; split; f_equal; lia.
Qed.

Lemma parseInt_toString (z : Z) : Str.parseInt (toString (Int z)) = Int z.
Proof.
  unfold toString, NilZero.string_of_int.
  destruct z as [|p|p]; [reflexivity|..]; cbn [Z.to_int];
    pose proof (to_uint_nonnil p) as Hn;
    pose proof (DecimalPos.Unsigned.of_to p) as Hp;
    destruct (parseInt_uint (Pos.to_uint p) Hn) as [H1 H2];
    unfold NilZero.string_of_uint;
    destruct (Pos.to_uint p) eqn:E; try congruence;
    rewrite <- E in *; rewrite Hp in *.
  all: first [exact H1 | exact H2].
Qed.

Lemma showSnapshot_fields (s : EditorState) (st : UI) (w h : inum) :
  width s = Some w -> truthy w = true ->
  height s = Some h -> truthy h = true ->
  resizeWidth (showSnapshot s st) = toString w
  /\ resizeHeight (showSnapshot s st) = toString h.
Proof.
  intros Hw Tw Hh Th. unfold showSnapshot. rewrite Hw, Tw, Hh, Th.
  destruct (imageSrc s) as [src|]; [destruct (Str.truthy src)|];
    split; reflexivity.
Qed.

(** X11: the resize fields written by an image load read back as the
    natural size.  After [handleImageLoad] the width and the height field
    parse to the natural width and height, so that applying the resize
    without typing pushes a state of exactly that size in resize mode and
    closes the tool. *)
Theorem X11_load_then_apply (st st1 : UI) (w h : N)
  (Hload : handleImageLoad w h st = Some st1) :
  Str.parseInt (resizeWidth st1) = Int (Z.of_N w)
  /\ Str.parseInt (resizeHeight st1) = Int (Z.of_N h)
  /\ currentState (handleResizeApply st1)
     = withMode ModeResize
         (withSize (Int (Z.of_N w)) (Int (Z.of_N h)) (currentState st1))
  /\ history (handleResizeApply st1)
     = (slice0 (history st1) (historyIndex st1 + 1)
        ++ [currentState (handleResizeApply st1)])%list
  /\ activeTool (handleResizeApply st1) = ToolNone.
Proof.
  assert (Hf : resizeWidth st1 = toString (Int (Z.of_N w))
               /\ resizeHeight st1 = toString (Int (Z.of_N h))).
  { revert Hload. unfold handleImageLoad.
    split_matches; intros H; try discriminate H; injection H as <-;
      split; reflexivity. }
  destruct Hf as [Hw Hh].
  assert (Pw : Str.parseInt (resizeWidth st1) = Int (Z.of_N w))
    by (rewrite Hw; apply parseInt_toString).
  assert (Ph : Str.parseInt (resizeHeight st1) = Int (Z.of_N h))
    by (rewrite Hh; apply parseInt_toString).
  split; [exact Pw|]. split; [exact Ph|].
  unfold handleResizeApply. rewrite Pw, Ph. simpl. repeat split.
Qed.

(** X12: after an undo that moves the cursor, the resize fields read back
    as the dimensions of the state now displayed (when these are non-zero
    integers below [2^53] in magnitude), so that applying the resize
    without typing pushes a state of the same size, in resize mode and
    with the same drawings. *)
Theorem X12_undo_then_apply (st u : UI) (zw zh : Z)
  (Hpos : (0 < historyIndex st)%Z)
  (Hundo : handleUndo st = Some u)
  (Hw : width (currentState u) = Some (Int zw)) (Hzw : zw <> 0%Z)
  (Hh : height (currentState u) = Some (Int zh)) (Hzh : zh <> 0%Z)
  (Hsafe : (Z.abs zw < 2 ^ 53 /\ Z.abs zh < 2 ^ 53)%Z) :
  Str.parseInt (resizeWidth u) = Int zw
  /\ Str.parseInt (resizeHeight u) = Int zh
  /\ width (currentState (handleResizeApply u)) = Some (Int zw)
  /\ height (currentState (handleResizeApply u)) = Some (Int zh)
  /\ mode (currentState (handleResizeApply u)) = Some ModeResize
  /\ drawings (currentState (handleResizeApply u))
     = drawings (currentState u).
Proof.
  unfold handleUndo in Hundo.
  destruct (Z.gtb_spec (historyIndex st) 0) as [_|Hle]; [|lia].
  destruct (jsget (history st) (historyIndex st - 1)) as [s|];
    [|discriminate Hundo].
  injection Hundo as <-.
  set (st0 := setCurrentState s (setHistoryIndex (historyIndex st - 1)%Z st))
    in *.
  destruct (showSnapshot_history s st0) as (_ & _ & Hc).
  rewrite Hc in Hw, Hh. simpl in Hw, Hh.
  assert (Tw : truthy (Int zw) = true)
    by (simpl; destruct (Z.eqb_spec zw 0); [contradiction|reflexivity]).
  assert (Th : truthy (Int zh) = true)
    by (simpl; destruct (Z.eqb_spec zh 0); [contradiction|reflexivity]).
  destruct (showSnapshot_fields s st0 _ _ Hw Tw Hh Th) as [Fw Fh].
  assert (Pw : Str.parseInt (resizeWidth (showSnapshot s st0)) = Int zw)
    by (rewrite Fw; apply parseInt_toString).
  assert (Ph : Str.parseInt (resizeHeight (showSnapshot s st0)) = Int zh)
    by (rewrite Fh; apply parseInt_toString).
  split; [exact Pw|]. split; [exact Ph|].
  unfold handleResizeApply. rewrite Pw, Ph. simpl. repeat split.
Qed.

(** ** The further properties at concrete inputs *)


(** X2 after one rotation and one filter. *)
Lemma X2_witness :
  let st := after editedEvents in
  reachable st
  /\ rotation (currentState st) = 90%Z
  /\ rotationOk (currentState st)
  /\ Forall rotationOk (history st)
  /\ currentState (handleRotate st)
     = withRotation ((rotation (currentState st) + 90) mod 360)
         (currentState st)
  /\ rotation (currentState
       (handleRotate (handleRotate (handleRotate (handleRotate st)))))
     = rotation (currentState st).
Proof.
  intros st.
  assert (Hr : reachable st)
    by (apply (after_reachable editedEvents st); vm_compute; reflexivity).
  split; [exact Hr|]. split; [vm_compute; reflexivity|].
  exact (X2_rotation_quarter_turns st Hr).
Defined.

(** X3 after one rotation and one filter. *)
Lemma X3_witness :
  let st := after editedEvents in
  reachable st
  /\ filter (currentState st) = "grayscale(100%)"%string
  /\ filterOk (currentState st)
  /\ Forall filterOk (history st)
  /\ currentState (handleFilter st)
     = withFilter (nextFilter (filter (currentState st))) (currentState st).
Proof.
  intros st.
  assert (Hr : reachable st)
    by (apply (after_reachable editedEvents st); vm_compute; reflexivity).
  split; [exact Hr|]. split; [vm_compute; reflexivity|].
  destruct (X3_filter_cycle st Hr) as (H1 & H2 & H3 & _).
  split; [exact H1|]. split; [exact H2|exact H3].
Defined.




(** X7 at the first pointer-move of a freehand drag. *)
Lemma X7_witness :
  let st := after strokeEvents in
  let ev := CanvasMouseMove (pointer 20 10) (Some sampleCanvas) in
  let st' := after (strokeEvents ++ [ev]) in
  step ev st = Some st' /\ rewinds ev = false
  /\ ((exists added,
         drawings (currentState st')
         = (drawings (currentState st) ++ added)%list)
      \/ (exists base col sz pts p,
            drawings (currentState st)
            = (base ++ [FreeStroke col sz pts])%list
            /\ drawings (currentState st')
               = (base ++ [FreeStroke col sz (pts ++ [p])])%list)).
Proof.
  intros st ev st'.
  assert (Hs : step ev st = Some st') by (vm_compute; reflexivity).
  split; [exact Hs|]. split; [reflexivity|].
  exact (X7_drawings_only_grow ev st st' Hs eq_refl).
Defined.


(** X10 at a drag from (720, 480) up and left to (120, 80) in the sample
    container: the box has its right lower corner at the pointer-down. *)
Lemma X10_witness :
  let st := after [Open sampleUrl; ImageLoad 1000 1000; ClickTool ToolCrop] in
  let down := handleEditorMouseDown (pointer 720 480) (Some sampleRect) 0 st in
  let moved := handleEditorMouseMove (pointer 120 80) (Some sampleRect) down in
  activeTool st = ToolCrop /\ cropRatio st = Custom
  /\ ~ (1200 == 0)%Q /\ ~ (800 == 0)%Q
  /\ cropBox moved
     = {| CropBox.left := Fin 10; CropBox.top := Fin 10;
          CropBox.width := Fin 50; CropBox.height := Fin 50 |}
  /\ exists sl stp l t w h : Q,
       cropBox down
       = {| CropBox.left := Fin sl; CropBox.top := Fin stp;
            CropBox.width := Fin 0; CropBox.height := Fin 0 |}
       /\ clamped ((720 - 0) / 1200 * 100) sl
       /\ clamped ((480 - 0) / 800 * 100) stp
       /\ cropBox moved
          = {| CropBox.left := Fin l; CropBox.top := Fin t;
               CropBox.width := Fin w; CropBox.height := Fin h |}
       /\ insideImage l t w h
       /\ ((0 <= (120 - 720) / 1200)%Q -> (l == sl)%Q)
       /\ (((120 - 720) / 1200 < 0)%Q -> (l + w == sl)%Q)
       /\ ((0 <= (80 - 480) / 800)%Q -> (t == stp)%Q)
       /\ (((80 - 480) / 800 < 0)%Q -> (t + h == stp)%Q)
       /\ dragSession moved = dragSession down
       /\ isCreatingCrop moved = true.
Proof.
  intros st down moved.
  assert (Ht : activeTool st = ToolCrop) by (vm_compute; reflexivity).
  assert (Hc : cropRatio st = Custom) by (vm_compute; reflexivity).
  assert (Hw : ~ (1200 == 0)%Q) by (intros H; discriminate H).
  assert (Hh : ~ (800 == 0)%Q) by (intros H; discriminate H).
  split; [exact Ht|]. split; [exact Hc|]. split; [exact Hw|].
  split; [exact Hh|]. split; [vm_compute; reflexivity|].
  exact (X10_create_drag_inside st 0 720 480 120 80 0 0 1200 800
           0 0 1200 800 Ht Hc Hw Hh Hw Hh).
Defined.

(** X11 at the load of a 2000 by 1333 image after the modal has opened. *)
Lemma X11_witness :
  let st := openEffect sampleUrl (initialUI sampleUrl) in
  let st1 := after [Open sampleUrl; ImageLoad 2000 1333] in
  handleImageLoad 2000 1333 st = Some st1
  /\ Str.parseInt (resizeWidth st1) = Int (Z.of_N 2000)
  /\ Str.parseInt (resizeHeight st1) = Int (Z.of_N 1333)
  /\ currentState (handleResizeApply st1)
     = withMode ModeResize
         (withSize (Int (Z.of_N 2000)) (Int (Z.of_N 1333))
            (currentState st1))
  /\ history (handleResizeApply st1)
     = (slice0 (history st1) (historyIndex st1 + 1)
        ++ [currentState (handleResizeApply st1)])%list
  /\ activeTool (handleResizeApply st1) = ToolNone.
Proof.
  intros st st1.
  assert (H1 : handleImageLoad 2000 1333 st = Some st1)
    by (vm_compute; reflexivity).
  split; [exact H1|].
  exact (X11_load_then_apply st st1 2000 1333 H1).
Defined.

(** X12 at the undo of a rotation of a 1200 by 800 image. *)
Lemma X12_witness :
  let st := after [Open sampleUrl; ImageLoad 1200 800; ClickRotate] in
  let u := after [Open sampleUrl; ImageLoad 1200 800; ClickRotate; Undo] in
  (0 < historyIndex st)%Z /\ handleUndo st = Some u
  /\ width (currentState u) = Some (Int 1200) /\ 1200%Z <> 0%Z
  /\ height (currentState u) = Some (Int 800) /\ 800%Z <> 0%Z
  /\ (Z.abs 1200 < 2 ^ 53 /\ Z.abs 800 < 2 ^ 53)%Z
  /\ Str.parseInt (resizeWidth u) = Int 1200
  /\ Str.parseInt (resizeHeight u) = Int 800
  /\ width (currentState (handleResizeApply u)) = Some (Int 1200)
  /\ height (currentState (handleResizeApply u)) = Some (Int 800)
  /\ mode (currentState (handleResizeApply u)) = Some ModeResize
  /\ drawings (currentState (handleResizeApply u))
     = drawings (currentState u).
Proof.
  intros st u.
  assert (H1 : (0 < historyIndex st)%Z) by (vm_compute; reflexivity).
  assert (H2 : handleUndo st = Some u) by (vm_compute; reflexivity).
  assert (H3 : width (currentState u) = Some (Int 1200))
    by (vm_compute; reflexivity).
  assert (H4 : 1200%Z <> 0%Z) by (intros H; discriminate H).
  assert (H5 : height (currentState u) = Some (Int 800))
    by (vm_compute; reflexivity).
  assert (H6 : 800%Z <> 0%Z) by (intros H; discriminate H).
  assert (H7 : (Z.abs 1200 < 2 ^ 53 /\ Z.abs 800 < 2 ^ 53)%Z)
    by (split; reflexivity).
  split; [exact H1|]. split; [exact H2|]. split; [exact H3|].
  split; [exact H4|]. split; [exact H5|]. split; [exact H6|].
  split; [exact H7|].
  exact (X12_undo_then_apply st u 1200 800 H1 H2 H3 H4 H5 H6 H7).
Defined.
